(** * arlington-to-vscode: the row-to-completion-item transformation

    A shallow embedding of [scripts/arlington-to-vscode.py] and the
    properties of its documentation builder, identifier counter and
    row pipeline.

    Python [str] values are modelled by [string], a character being one
    of the 256 values of [ascii].  The script only concatenates strings,
    compares them with ASCII literals, measures their length and rewrites
    literal substrings, so nothing depends on the character set beyond
    the equality of characters.  Python [int] is [Z].

    The writer and the reader of the JSON file ([DataFrame.to_json] and
    [json.load]) are library code; they are modelled on the records of
    the transformed table, so that the text of a table can be read
    back. *)

From Stdlib Require Import Strings.String Strings.Ascii.
From Stdlib Require Import ZArith NArith List Lists.Finite Bool Lia.
From Stdlib Require Import Numbers.DecimalFacts Numbers.DecimalPos Numbers.DecimalZ.
Import ListNotations.

Open Scope string_scope.

(** ** Python string primitives *)

(** [s.startswith(prefix)] *)
Fixpoint startswith (s prefix : string) {struct prefix} : bool :=
  match prefix with
  | "" => true
  | String p prefix' =>
      match s with
      | "" => false
      | String c s' => Ascii.eqb c p && startswith s' prefix'
      end
  end.

(** [sub in s] *)
Fixpoint str_in (sub s : string) : bool :=
  match s with
  | "" => startswith "" sub
  | String _ s' => startswith s sub || str_in sub s'
  end.

(** [s.find(sub)]: the lowest index at which [sub] occurs in [s], [-1]
    when it does not occur. *)
Fixpoint str_find (s sub : string) : Z :=
  if startswith s sub then 0%Z
  else match s with
       | "" => (-1)%Z
       | String _ s' =>
           let i := str_find s' sub in
           if (i =? -1)%Z then (-1)%Z else (i + 1)%Z
       end.

(** [re.sub(pattern, repl, s)] for a pattern that denotes one non-empty
    literal string and a replacement without group references, which is
    what the three calls of the script pass ([";"], ["_\(\)_"] and
    ["_\(; "] denote the literals [;], [_()_] and [_(; ]).  Matches are
    found left to right and do not overlap: after a match the scan resumes
    behind it, and the text put in by the replacement is not scanned
    again.  [skip] counts the characters of the current match that are
    still to be consumed. *)
Fixpoint sub_from (skip : nat) (pattern repl s : string) : string :=
  match s with
  | "" => ""
  | String c s' =>
      match skip with
      | S k => sub_from k pattern repl s'
      | O =>
          if startswith s pattern
          then repl ++ sub_from (String.length pattern - 1) pattern repl s'
          else String c (sub_from 0 pattern repl s')
      end
  end.

Definition re_sub (pattern repl s : string) : string :=
  sub_from 0 pattern repl s.

(** ** Values, exceptions and the run state *)

(** The scalar values that occur in the script. *)
Inductive Scalar : Type :=
| SStr (s : string)
| SInt (z : Z)
| SBool (b : bool).

(** A Python object of the filtering expression: a scalar, or a pandas
    Series, which is a sequence of scalars with their index labels. *)
Inductive PyObj : Type :=
| Val (v : Scalar)
| Series (xs : list (Z * Scalar)).

Inductive PyErr : Type :=
| AttributeError (type attr : string)
| KeyError (key : Scalar)
| IndexingError (msg : string)
| TypeError (operator left right : string)
| ValueError (msg : string).

(** The module-level variable [rowCount] is the only state of a run; a
    computation takes its current value and returns the value it leaves,
    with either an exception or a result. *)
Definition M (A : Type) : Type := Z -> (PyErr + A) * Z.

Definition ret {A} (a : A) : M A := fun n => (inr a, n).

Definition bind {A B} (m : M A) (k : A -> M B) : M B :=
  fun n =>
    match m n with
    | (inl e, n') => (inl e, n')
    | (inr a, n') => k a n'
    end.

Definition raise {A} (e : PyErr) : M A := fun n => (inl e, n).

Definition lift {A} (r : PyErr + A) : M A := fun n => (r, n).

Notation "x <- m ;; k" := (bind m (fun x => k))
  (at level 61, m at next level, right associativity).

(** Line 28: [rowCount = 1] at module load. *)
Definition rowCount : Z := 1.

(** ** Rows and frames *)

(** A row of the table as [read_csv] loads it: thirteen text columns
    ([dtype] forces text, [na_filter=False] keeps an empty cell as the
    empty string). *)
Record TsvRow : Type := mkTsvRow {
  tsv_Object : string;
  tsv_Key : string;
  tsv_Type : string;
  tsv_SinceVersion : string;
  tsv_DeprecatedIn : string;
  tsv_Required : string;
  tsv_IndirectReference : string;
  tsv_Inheritable : string;
  tsv_DefaultValue : string;
  tsv_PossibleValues : string;
  tsv_SpecialCase : string;
  tsv_Link : string;
  tsv_Note : string
}.

(** A row once the [Note] column is dropped. *)
Record Row : Type := mkRow {
  Object : string;
  Key : string;
  Type_ : string;
  SinceVersion : string;
  DeprecatedIn : string;
  Required : string;
  IndirectReference : string;
  Inheritable : string;
  DefaultValue : string;
  PossibleValues : string;
  SpecialCase : string;
  Link : string
}.

(** A row with the [Data] column, as the documentation builder sees it. *)
Record NumberedRow : Type := mkNumbered {
  fields : Row;
  Data : Z
}.

(** A row with both added columns: one record of the JSON output. *)
Record Item : Type := mkItem {
  numbered : NumberedRow;
  Documentation : string
}.

(** A DataFrame: its rows in order, each with its index label. *)
Definition Frame (A : Type) : Type := list (Z * A).

(** ** The script *)

(** Lines 33-36. *)
Definition CreateVSCodeCompletionData {A} (row : A) : M Z :=
  fun n =>
    let n := (n + 1)%Z in
    (inr (n - 1)%Z, n).

(** Lines 44-61. *)
Definition CreateVSCodeCompletionDocumentation (row : NumberedRow) : string :=
  let r := fields row in
  let s := ("`" ++ Type_ r) ++ "` _(" in
  let s := re_sub ";" "`;`" s in
  let s := if (String.length (SinceVersion r) =? 3)%nat
           then (s ++ "PDF ") ++ SinceVersion r else s in
  let s := if (Required r =? "TRUE")%string then s ++ "; Required"
           else if (Required r =? "FALSE")%string then s ++ "; Optional"
           else s in
  let s := if negb (DeprecatedIn r =? "")%string
           then (s ++ "; Deprecated in PDF ") ++ DeprecatedIn r else s in
  let s := s ++ ")_" in
  let s := if (IndirectReference r =? "TRUE")%string
           then s ++ " Must be indirect reference." else s in
  let s := re_sub "_()_" "" s in
  let s := re_sub "_(; " "_(" s in
  s.

(** The builder with the Required clause (lines 49-52) left out: what
    [CreateVSCodeCompletionDocumentation] is compared with for a row whose
    Required field is neither of the two recognised values. *)
Definition documentation_without_Required (row : NumberedRow) : string :=
  let r := fields row in
  let s := ("`" ++ Type_ r) ++ "` _(" in
  let s := re_sub ";" "`;`" s in
  let s := if (String.length (SinceVersion r) =? 3)%nat
           then (s ++ "PDF ") ++ SinceVersion r else s in
  let s := if negb (DeprecatedIn r =? "")%string
           then (s ++ "; Deprecated in PDF ") ++ DeprecatedIn r else s in
  let s := s ++ ")_" in
  let s := if (IndirectReference r =? "TRUE")%string
           then s ++ " Must be indirect reference." else s in
  let s := re_sub "_()_" "" s in
  let s := re_sub "_(; " "_(" s in
  s.

(** ** The pandas operations of [ArlingtonToTS] *)

(** [pd.read_csv]: the frame of the parsed rows under a [RangeIndex]
    (labels 0, 1, ...).  Reading and splitting the file is not modelled:
    the argument is the sequence of rows of the file. *)
Definition read_csv (rows : list TsvRow) : Frame TsvRow :=
  combine (map Z.of_nat (seq 0 (List.length rows))) rows.

(** [df.drop(columns='Note')] *)
Definition drop_Note (df : Frame TsvRow) : Frame Row :=
  map (fun '(i, r) =>
         (i, mkRow (tsv_Object r) (tsv_Key r) (tsv_Type r) (tsv_SinceVersion r)
                   (tsv_DeprecatedIn r) (tsv_Required r)
                   (tsv_IndirectReference r) (tsv_Inheritable r)
                   (tsv_DefaultValue r) (tsv_PossibleValues r)
                   (tsv_SpecialCase r) (tsv_Link r)))
      df.

(** [df[name]] for a text column: the Series of its values. *)
Definition column {A} (get : A -> string) (df : Frame A) : PyObj :=
  Series (map (fun '(i, r) => (i, SStr (get r))) df).

(** [obj.find]: attribute lookup.  [find] is a method of [str].  A pandas
    Series has no attribute of that name (its string methods are reached
    through the [.str] accessor, as in [df["Object"].str.find]), and under
    a [RangeIndex] no label can stand in for it, so the lookup raises
    [AttributeError: 'Series' object has no attribute 'find']. *)
Definition getattr_find (obj : PyObj) : PyErr + (string -> PyObj) :=
  match obj with
  | Val (SStr s) => inr (fun sub => Val (SInt (str_find s sub)))
  | Val (SInt _) => inl (AttributeError "int" "find")
  | Val (SBool _) => inl (AttributeError "bool" "find")
  | Series _ => inl (AttributeError "Series" "find")
  end.

(** [a == b] on scalars ([True == 1] and [False == 0] in Python). *)
Definition scalar_eq (a b : Scalar) : bool :=
  match a, b with
  | SStr s, SStr t => (s =? t)%string
  | SInt x, SInt y => (x =? y)%Z
  | SBool x, SBool y => Bool.eqb x y
  | SBool x, SInt y | SInt y, SBool x => (Z.b2z x =? y)%Z
  | _, _ => false
  end.

(** [a != b] with a scalar on the right: element-wise on a Series. *)
Definition py_ne (a : PyObj) (b : Scalar) : PyObj :=
  match a with
  | Val v => Val (SBool (negb (scalar_eq v b)))
  | Series xs => Series (map (fun '(i, v) => (i, SBool (negb (scalar_eq v b)))) xs)
  end.

(** Boolean indexing with a mask labelled like the frame. *)
Fixpoint select {A} (df : Frame A) (mask : list (Z * Scalar)) : PyErr + Frame A :=
  match df, mask with
  | [], [] => inr []
  | (i, r) :: df', (j, SBool b) :: mask' =>
      if (i =? j)%Z then
        match select df' mask' with
        | inl e => inl e
        | inr rest => inr (if b then (i, r) :: rest else rest)
        end
      else inl (IndexingError "Unalignable boolean Series provided as indexer")
  | _, _ => inl (IndexingError "Unalignable boolean Series provided as indexer")
  end.

(** [df[key]] as the script uses it: a boolean Series selects rows, a
    scalar names a column, and no column is named by a boolean or an
    integer. *)
Definition getitem {A} (df : Frame A) (key : PyObj) : PyErr + Frame A :=
  match key with
  | Series mask => select df mask
  | Val v => inl (KeyError v)
  end.

(** [df.index] *)
Definition index {A} (df : Frame A) : list Z := map fst df.

(** [df.drop(labels, inplace=True)]: the rows whose label is listed are
    removed; a label that the frame does not have raises [KeyError]. *)
Definition drop {A} (labels : list Z) (df : Frame A) : PyErr + Frame A :=
  match find (fun l => negb (existsb (Z.eqb l) (index df))) labels with
  | Some l => inl (KeyError (SInt l))
  | None => inr (filter (fun '(i, _) => negb (existsb (Z.eqb i) labels)) df)
  end.

(** The calls of [df.apply(f, axis=1)] on a frame with rows: [f] is
    called once on every row, in index order; the results form a Series
    labelled like the frame. *)
Fixpoint apply_rows {A B} (f : A -> M B) (df : Frame A) : M (Frame B) :=
  match df with
  | [] => ret []
  | (i, r) :: df' =>
      v <- f r ;;
      vs <- apply_rows f df' ;;
      ret ((i, v) :: vs)
  end.

(** What [df.apply(f, axis=1)] returns: a Series labelled like the frame
    or, for a frame without rows on which the trial call raised, a copy of
    the frame. *)
Inductive Applied (B : Type) : Type :=
| Column (values : Frame B)
| FrameCopy.

Arguments Column {B} values.
Arguments FrameCopy {B}.

(** [df.apply(f, axis=1)].  The function receives [Some] row of the frame.
    On a frame without rows pandas makes one trial call of [f] on a
    placeholder row, [None] here, whose cells are all the float [nan], to
    see what [f] returns: when the call returns, its value is dropped and
    the result is an empty Series; when it raises, the exception is
    swallowed and the result is a copy of the frame.  Either way the
    trial call has had its effect on [rowCount]. *)
Definition apply {A B} (f : option A -> M B) (df : Frame A) : M (Applied B) :=
  match df with
  | [] =>
      fun n =>
        match f None n with
        | (inl _, n') => (inr FrameCopy, n')
        | (inr _, n') => (inr (Column []), n')
        end
  | _ :: _ =>
      values <- apply_rows (fun row => f (Some row)) df ;;
      ret (Column values)
  end.

(** [df[name] = series]: a new column, [mk] being the row with one more
    field. *)
Fixpoint setitem {A B C} (mk : A -> B -> C) (df : Frame A) (col : Frame B) : Frame C :=
  match df, col with
  | (i, r) :: df', (_, v) :: col' => (i, mk r v) :: setitem mk df' col'
  | _, _ => []
  end.

(** [df[name] = value] for what [apply] returned: a Series becomes the
    new column; a frame, which has the twelve columns and more, is
    refused. *)
Definition setitem_applied {A B C} (name : string) (mk : A -> B -> C)
    (df : Frame A) (value : Applied B) : PyErr + Frame C :=
  match value with
  | Column col => inr (setitem mk df col)
  | FrameCopy =>
      inl (ValueError
             ("Cannot set a DataFrame with multiple columns to the single column "
              ++ name))
  end.

(** [df.to_json(orient='records')]: the rows in order, without their
    labels, are what is written. *)
Definition to_json_records {A} (df : Frame A) : list A := map snd df.

(** The function of line 83 on what [apply] hands to it: on the
    placeholder row the cell [row["Type"]] is a float, and the
    concatenation of line 45 raises. *)
Definition documentation_of (row : option NumberedRow) : M string :=
  match row with
  | Some r => ret (CreateVSCodeCompletionDocumentation r)
  | None => raise (TypeError "+" "str" "float")
  end.

(** Lines 82-85: the two added columns, and the records handed to the
    JSON writer. *)
Definition add_columns (df : Frame Row) : M (list Item) :=
  data <- apply (fun row => CreateVSCodeCompletionData row) df ;;
  df <- lift (setitem_applied "Data" mkNumbered df data) ;;
  docs <- apply documentation_of df ;;
  df <- lift (setitem_applied "Documentation" mkItem df docs) ;;
  ret (to_json_records df).

(** Lines 65-85.  The argument is the content of the TSV file, the result
    the sequence of records handed to the JSON writer. *)
Definition ArlingtonToTS (pandas_tsv : list TsvRow) : M (list Item) :=
  let df := read_csv pandas_tsv in
  let df := drop_Note df in
  find_ <- lift (getattr_find (column Object df)) ;;
  arr_obj <- lift (getitem df (py_ne (find_ "Array") (SInt (-1)))) ;;
  df <- lift (drop (index arr_obj) df) ;;
  find_ <- lift (getattr_find (column Object df)) ;;
  arr_obj <- lift (getitem df (py_ne (find_ "ColorSpace") (SInt (-1)))) ;;
  df <- lift (drop (index arr_obj) df) ;;
  add_columns df.

(** One run of the script: [ArlingtonToTS] from the start value of
    [rowCount]. *)
Definition run (pandas_tsv : list TsvRow) : (PyErr + list Item) * Z :=
  ArlingtonToTS pandas_tsv rowCount.

(** ** The command line (lines 96-112) *)






(** ** The JSON text (line 85 and line 91) *)

(** A value as [json.load] returns it: [None], a truth value, an [int],
    a [str], a list, or a [dict] with its keys in the order of their
    insertion. *)
#[warnings="-register-all"]
Inductive json : Type :=
| JNull
| JBool (b : bool)
| JInt (z : Z)
| JStr (s : string)
| JArr (items : list json)
| JObj (members : list (string * json)).

Definition dquote : ascii := "034"%char.
Definition backslash : ascii := "092"%char.
Definition newline : ascii := "010"%char.

(** The hexadecimal digit, in lower case, of a value below 16. *)
Definition hex_digit (n : N) : ascii :=
  match n with
  | 0 => "0" | 1 => "1" | 2 => "2" | 3 => "3" | 4 => "4" | 5 => "5"
  | 6 => "6" | 7 => "7" | 8 => "8" | 9 => "9" | 10 => "a" | 11 => "b"
  | 12 => "c" | 13 => "d" | 14 => "e" | _ => "f"
  end%N%char.

(** The value of a hexadecimal digit of either case. *)
Definition hex_value (c : ascii) : option N :=
  let n := N_of_ascii c in
  if ((48 <=? n) && (n <=? 57))%N then Some (n - 48)%N
  else if ((97 <=? n) && (n <=? 102))%N then Some (n - 87)%N
  else if ((65 <=? n) && (n <=? 70))%N then Some (n - 55)%N
  else None.

(** Modelled from the spec: the text of one character inside a JSON
    string, as the writer behind [DataFrame.to_json] produces it (library
    code, not part of the script).  The quote, the backslash and the
    slash are escaped, the control characters have their short escapes
    or [\u00XX], and so has every character outside ASCII. *)
Definition escape_char (c : ascii) : string :=
  let n := N_of_ascii c in
  if Ascii.eqb c dquote then String backslash (String dquote "")
  else if Ascii.eqb c backslash then String backslash (String backslash "")
  else if Ascii.eqb c "/" then String backslash "/"
  else if (n =? 8)%N then String backslash "b"
  else if (n =? 12)%N then String backslash "f"
  else if (n =? 10)%N then String backslash "n"
  else if (n =? 13)%N then String backslash "r"
  else if (n =? 9)%N then String backslash "t"
  else if ((n <? 32) || (127 <? n))%N then
    String backslash
      (String "u" (String "0" (String "0"
         (String (hex_digit (n / 16)) (String (hex_digit (n mod 16)) "")))))
  else String c "".

Fixpoint escape (s : string) : string :=
  match s with
  | "" => ""
  | String c s' => escape_char c ++ escape s'
  end.

Definition json_string (s : string) : string :=
  String dquote (escape s ++ String dquote "").

(** The decimal digits of a number, most significant first. *)
Fixpoint digits_text (u : Decimal.uint) : string :=
  match u with
  | Decimal.Nil => ""
  | Decimal.D0 u => String "0" (digits_text u)
  | Decimal.D1 u => String "1" (digits_text u)
  | Decimal.D2 u => String "2" (digits_text u)
  | Decimal.D3 u => String "3" (digits_text u)
  | Decimal.D4 u => String "4" (digits_text u)
  | Decimal.D5 u => String "5" (digits_text u)
  | Decimal.D6 u => String "6" (digits_text u)
  | Decimal.D7 u => String "7" (digits_text u)
  | Decimal.D8 u => String "8" (digits_text u)
  | Decimal.D9 u => String "9" (digits_text u)
  end.

Definition json_int (z : Z) : string :=
  match Z.to_int z with
  | Decimal.Pos u => digits_text u
  | Decimal.Neg u => String "-" (digits_text u)
  end.

Definition render_scalar (v : Scalar) : string :=
  match v with
  | SStr s => json_string s
  | SInt z => json_int z
  | SBool true => "true"
  | SBool false => "false"
  end.

(** One member of an object, on a line of its own, four spaces in. *)
Definition render_member (m : string * Scalar) : string :=
  "    " ++ json_string (fst m) ++ ":" ++ render_scalar (snd m).

Fixpoint render_members (ms : list (string * Scalar)) : string :=
  match ms with
  | [] => ""
  | [m] => render_member m ++ String newline ""
  | m :: ms' => render_member m ++ "," ++ String newline (render_members ms')
  end.

(** One object, two spaces in. *)
Definition render_record (ms : list (string * Scalar)) : string :=
  "  {" ++ String newline (render_members ms ++ "  }").

Fixpoint render_records (rs : list (list (string * Scalar))) : string :=
  match rs with
  | [] => ""
  | [r] => render_record r ++ String newline ""
  | r :: rs' => render_record r ++ "," ++ String newline (render_records rs')
  end.

(** The columns of a record of the transformed table, in column order. *)
Definition columns_of (item : Item) : list (string * Scalar) :=
  let row := numbered item in
  let r := fields row in
  [ ("Object", SStr (Object r)); ("Key", SStr (Key r)); ("Type", SStr (Type_ r));
    ("SinceVersion", SStr (SinceVersion r)); ("DeprecatedIn", SStr (DeprecatedIn r));
    ("Required", SStr (Required r));
    ("IndirectReference", SStr (IndirectReference r));
    ("Inheritable", SStr (Inheritable r)); ("DefaultValue", SStr (DefaultValue r));
    ("PossibleValues", SStr (PossibleValues r)); ("SpecialCase", SStr (SpecialCase r));
    ("Link", SStr (Link r)); ("Data", SInt (Data row));
    ("Documentation", SStr (Documentation item)) ].

(** Modelled from the spec: [df.to_json(path_or_buf=json_fname,
    orient='records', indent=2)] of line 85, which is library code.  The
    text written is a JSON array of objects, one object per record, the
    members in column order, indented by two spaces per level. *)
Definition to_json (records : list Item) : string :=
  match records with
  | [] => "[]"
  | _ :: _ => "[" ++ String newline (render_records (map columns_of records) ++ "]")
  end.

(** JSON white space: space, tab, line feed, carriage return. *)
Definition is_ws (c : ascii) : bool :=
  Ascii.eqb c " " || Ascii.eqb c "009" || Ascii.eqb c "010" || Ascii.eqb c "013".

Fixpoint skip_ws (s : string) : string :=
  match s with
  | "" => ""
  | String c r => if is_ws c then skip_ws r else s
  end.

(** The character that a short escape stands for. *)
Definition unescape (e : ascii) : option ascii :=
  if Ascii.eqb e dquote then Some dquote
  else if Ascii.eqb e backslash then Some backslash
  else if Ascii.eqb e "/" then Some "/"%char
  else if Ascii.eqb e "b" then Some "008"%char
  else if Ascii.eqb e "f" then Some "012"%char
  else if Ascii.eqb e "n" then Some "010"%char
  else if Ascii.eqb e "r" then Some "013"%char
  else if Ascii.eqb e "t" then Some "009"%char
  else None.

(** The character of [\uXXXX]; a code point of 256 or more is outside the
    characters of the model, and the parser gives up on it. *)
Definition unicode_escape (h1 h2 h3 h4 : ascii) : option ascii :=
  match hex_value h1, hex_value h2, hex_value h3, hex_value h4 with
  | Some a, Some b, Some c, Some d =>
      if ((a =? 0) && (b =? 0))%N then Some (ascii_of_N (16 * c + d)) else None
  | _, _, _, _ => None
  end.

Definition cons_char (c : ascii) (r : option (string * string)) : option (string * string) :=
  match r with
  | Some (t, rest) => Some (String c t, rest)
  | None => None
  end.

(** The characters of a string up to its closing quote, and the text
    behind it.  A control character that is not escaped is refused. *)
Fixpoint parse_chars (s : string) : option (string * string) :=
  match s with
  | "" => None
  | String c r =>
      if Ascii.eqb c dquote then Some ("", r)
      else if Ascii.eqb c backslash then
        match r with
        | "" => None
        | String e r1 =>
            if Ascii.eqb e "u" then
              match r1 with
              | String h1 (String h2 (String h3 (String h4 r2))) =>
                  match unicode_escape h1 h2 h3 h4 with
                  | Some c' => cons_char c' (parse_chars r2)
                  | None => None
                  end
              | _ => None
              end
            else
              match unescape e with
              | Some c' => cons_char c' (parse_chars r1)
              | None => None
              end
        end
      else if (N_of_ascii c <? 32)%N then None
      else cons_char c (parse_chars r)
  end.

Definition digit_of (c : ascii) : option (Decimal.uint -> Decimal.uint) :=
  if Ascii.eqb c "0" then Some Decimal.D0
  else if Ascii.eqb c "1" then Some Decimal.D1
  else if Ascii.eqb c "2" then Some Decimal.D2
  else if Ascii.eqb c "3" then Some Decimal.D3
  else if Ascii.eqb c "4" then Some Decimal.D4
  else if Ascii.eqb c "5" then Some Decimal.D5
  else if Ascii.eqb c "6" then Some Decimal.D6
  else if Ascii.eqb c "7" then Some Decimal.D7
  else if Ascii.eqb c "8" then Some Decimal.D8
  else if Ascii.eqb c "9" then Some Decimal.D9
  else None.

(** The longest run of digits at the start of a text, and the rest. *)
Fixpoint scan_digits (s : string) : Decimal.uint * string :=
  match s with
  | "" => (Decimal.Nil, "")
  | String c r =>
      match digit_of c with
      | Some d => let (u, rest) := scan_digits r in (d u, rest)
      | None => (Decimal.Nil, s)
      end
  end.

(** The digits of a JSON integer: [0], or digits that do not begin with
    [0]. *)
Definition plain_digits (u : Decimal.uint) : bool :=
  match u with
  | Decimal.Nil => false
  | Decimal.D0 Decimal.Nil => true
  | Decimal.D0 _ => false
  | _ => true
  end.

(** The digits of a number and what follows them.  A number with a
    fraction or an exponent is a [float], which the model does not
    represent: the parser gives up on it. *)
Definition parse_digits (negative : bool) (s : string) : option (json * string) :=
  let (u, rest) := scan_digits s in
  if plain_digits u then
    if startswith rest "." || startswith rest "e" || startswith rest "E" then None
    else Some (JInt (Z.of_int (if negative then Decimal.Neg u else Decimal.Pos u)), rest)
  else None.

Definition parse_number (s : string) : option (json * string) :=
  match s with
  | "" => None
  | String c r => if Ascii.eqb c "-" then parse_digits true r else parse_digits false s
  end.

(** [d[k] = v] on a [dict]: a key that is there keeps its place. *)
Fixpoint dict_set (d : list (string * json)) (k : string) (v : json) : list (string * json) :=
  match d with
  | [] => [(k, v)]
  | (k', v') :: d' =>
      if (k' =? k)%string then (k', v) :: d' else (k', v') :: dict_set d' k v
  end.

(** [dict(pairs)] *)
Definition dict (pairs : list (string * json)) : list (string * json) :=
  fold_left (fun d kv => dict_set d (fst kv) (snd kv)) pairs [].

(** A value, the elements of an array behind its bracket, and the
    members of an object behind its brace, each with the text that
    follows.  [fuel] bounds the number of nested calls; the length of
    the text is enough of it. *)
Fixpoint parse_value (fuel : nat) (s : string) : option (json * string) :=
  match fuel with
  | O => None
  | S fuel =>
      match skip_ws s with
      | "" => None
      | String c r =>
          if Ascii.eqb c dquote then
            match parse_chars r with
            | Some (t, rest) => Some (JStr t, rest)
            | None => None
            end
          else if Ascii.eqb c "[" then
            if startswith (skip_ws r) "]" then
              Some (JArr [], substring 1 (String.length (skip_ws r)) (skip_ws r))
            else
              match parse_elements fuel r with
              | Some (vs, rest) => Some (JArr vs, rest)
              | None => None
              end
          else if Ascii.eqb c "{" then
            if startswith (skip_ws r) "}" then
              Some (JObj [], substring 1 (String.length (skip_ws r)) (skip_ws r))
            else
              match parse_members fuel r with
              | Some (ms, rest) => Some (JObj (dict ms), rest)
              | None => None
              end
          else if startswith (String c r) "true" then
            Some (JBool true, substring 4 (String.length r) (String c r))
          else if startswith (String c r) "false" then
            Some (JBool false, substring 5 (String.length r) (String c r))
          else if startswith (String c r) "null" then
            Some (JNull, substring 4 (String.length r) (String c r))
          else parse_number (String c r)
      end
  end
with parse_elements (fuel : nat) (s : string) : option (list json * string) :=
  match fuel with
  | O => None
  | S fuel =>
      match parse_value fuel s with
      | None => None
      | Some (v, r) =>
          match skip_ws r with
          | "" => None
          | String c r' =>
              if Ascii.eqb c "," then
                match parse_elements fuel r' with
                | Some (vs, rest) => Some (v :: vs, rest)
                | None => None
                end
              else if Ascii.eqb c "]" then Some ([v], r')
              else None
          end
      end
  end
with parse_members (fuel : nat) (s : string) : option (list (string * json) * string) :=
  match fuel with
  | O => None
  | S fuel =>
      match skip_ws s with
      | "" => None
      | String q r =>
          if Ascii.eqb q dquote then
            match parse_chars r with
            | None => None
            | Some (k, r1) =>
                match skip_ws r1 with
                | "" => None
                | String c r2 =>
                    if Ascii.eqb c ":" then
                      match parse_value fuel r2 with
                      | None => None
                      | Some (v, r3) =>
                          match skip_ws r3 with
                          | "" => None
                          | String c' r4 =>
                              if Ascii.eqb c' "," then
                                match parse_members fuel r4 with
                                | Some (ms, rest) => Some ((k, v) :: ms, rest)
                                | None => None
                                end
                              else if Ascii.eqb c' "}" then Some ([(k, v)], r4)
                              else None
                          end
                      end
                    else None
                end
            end
          else None
      end
  end.

(** Modelled from the spec: [json.load] of line 91, which is library
    code, on the text of the file: the value the text denotes, and
    [None] where the text is not one JSON value with at most white space
    around it. *)
Definition json_load (text : string) : option json :=
  match parse_value (String.length text) text with
  | Some (v, rest) => if (skip_ws rest =? "")%string then Some v else None
  | None => None
  end.

(** The value that a transformed table is as Python data: a list with
    one [dict] per record. *)
Definition json_of_scalar (v : Scalar) : json :=
  match v with
  | SStr s => JStr s
  | SInt z => JInt z
  | SBool b => JBool b
  end.

(** A member and a record of the table as Python data. *)
Definition member_json (m : string * Scalar) : string * json :=
  (fst m, json_of_scalar (snd m)).

Definition record_json (item : Item) : json :=
  JObj (map member_json (columns_of item)).

Definition json_of_table (records : list Item) : json :=
  JArr (map record_json records).

(** A character that ends the digits of an integer. *)
Definition ends_number (c : ascii) : bool :=
  match digit_of c with
  | Some _ => false
  | None => negb (Ascii.eqb c "." || Ascii.eqb c "e" || Ascii.eqb c "E")
  end.

(** A cell of the table: text or a whole number. *)
Definition is_cell (v : Scalar) : bool :=
  match v with
  | SStr _ | SInt _ => true
  | SBool _ => false
  end.

(** ** Notions used in the statements *)

(** The builder with the tidy-up (lines 59-60) left out: the string as it
    stands after line 57. *)
Definition documentation_untidied (row : NumberedRow) : string :=
  let r := fields row in
  let s := ("`" ++ Type_ r) ++ "` _(" in
  let s := re_sub ";" "`;`" s in
  let s := if (String.length (SinceVersion r) =? 3)%nat
           then (s ++ "PDF ") ++ SinceVersion r else s in
  let s := if (Required r =? "TRUE")%string then s ++ "; Required"
           else if (Required r =? "FALSE")%string then s ++ "; Optional"
           else s in
  let s := if negb (DeprecatedIn r =? "")%string
           then (s ++ "; Deprecated in PDF ") ++ DeprecatedIn r else s in
  let s := s ++ ")_" in
  let s := if (IndirectReference r =? "TRUE")%string
           then s ++ " Must be indirect reference." else s in
  s.

(** [sep.join(parts)] *)
Fixpoint join (sep : string) (parts : list string) : string :=
  match parts with
  | [] => ""
  | [t] => t
  | t :: parts' => t ++ sep ++ join sep parts'
  end.

(** No character of [w] occurs in [pat]. *)
Fixpoint disjoint_chars (w pat : string) : bool :=
  match w with
  | "" => true
  | String c w' => negb (str_in (String c "") pat) && disjoint_chars w' pat
  end.

(** ** Sample tables *)

(** A row of the TSV file with the given Object, Key and Type and empty
    cells elsewhere. *)
Definition tsv_row (object key type_ : string) : TsvRow :=
  mkTsvRow object key type_ "" "" "" "" "" "" "" "" "" "".

Definition Catalog_Type : TsvRow := tsv_row "Catalog" "Type" "name".
Definition Catalog_Pages : TsvRow := tsv_row "Catalog" "Pages" "dictionary".
Definition ArrayOfAnnots_star : TsvRow := tsv_row "ArrayOfAnnots" "*" "dictionary".
Definition CalGrayColorSpace_0 : TsvRow := tsv_row "CalGrayColorSpace" "0" "name".
Definition Page_Parent : TsvRow := tsv_row "Page" "Parent" "dictionary".

(** * Properties *)

(** ** Concatenation and prefixes *)

Lemma append_assoc (a b c : string) : (a ++ b) ++ c = a ++ b ++ c.
Proof. induction a as [|x a IH]; simpl; [reflexivity | now rewrite IH]. Qed.

Lemma startswith_trans (s p q : string) :
  startswith s p = true -> startswith p q = true -> startswith s q = true.
Proof.
  revert s p; induction q as [|c q IH]; intros s p Hsp Hpq; [reflexivity|].
  destruct p as [|d p]; [discriminate|].
  destruct s as [|e s]; [discriminate|].
  simpl in *.
  apply andb_true_iff in Hsp as [Hed Hsp].
  apply andb_true_iff in Hpq as [Hdc Hpq].
  apply Ascii.eqb_eq in Hed, Hdc; subst.
  rewrite Ascii.eqb_refl; simpl.
  now apply IH with p.
Qed.

(** [str_in] is the substring relation. *)
Lemma str_in_iff (sub s : string) :
  str_in sub s = true <-> exists a b, s = a ++ sub ++ b.
Proof.
  assert (Hpre : forall p t, startswith t p = true <-> exists b, t = p ++ b).
  { induction p as [|c p IH]; intros t; simpl.
    - split; [intros _; now exists t | reflexivity].
    - destruct t as [|x t].
      + split; [discriminate | intros [b Hb]; discriminate].
      + rewrite andb_true_iff, IH, Ascii.eqb_eq.
        split.
        * intros [-> [b ->]]. now exists b.
        * intros [b Hb]. injection Hb as -> ->. split; [reflexivity | now exists b]. }
  induction s as [|x s IH]; simpl.
  - rewrite Hpre. split.
    + intros [b Hb]. now exists "", b.
    + intros [a [b Hab]]. destruct a; [now exists b | discriminate].
  - rewrite orb_true_iff, IH, Hpre. split.
    + intros [[b Hb] | [a [b Hab]]].
      * now exists "", b.
      * exists (String x a), b. simpl. now rewrite Hab.
    + intros [a [b Hab]]. destruct a as [|y a]; simpl in Hab.
      * left. now exists b.
      * right. injection Hab as _ ->. now exists a, b.
Qed.

Lemma str_in_cons (sub s : string) (c : ascii) :
  str_in sub (String c s) = startswith (String c s) sub || str_in sub s.
Proof. reflexivity. Qed.

Lemma str_in_cons_false (sub s : string) (c : ascii) :
  str_in sub (String c s) = false ->
  startswith (String c s) sub = false /\ str_in sub s = false.
Proof. simpl. now rewrite orb_false_iff. Qed.

(** A text without [q] has no occurrence of a pattern in which [q]
    occurs. *)
Lemma str_in_weaken_sub (pat q s : string) :
  str_in q pat = true -> str_in q s = false -> str_in pat s = false.
Proof.
  intros Hp Hs.
  destruct (str_in pat s) eqn:E; [|reflexivity].
  apply str_in_iff in E as [a [b ->]].
  assert (Hc : str_in q (a ++ pat ++ b) = true).
  { apply str_in_iff.
    apply str_in_iff in Hp as [u [v ->]].
    exists (a ++ u), (v ++ b). now rewrite !append_assoc. }
  congruence.
Qed.

Lemma str_in_weaken (pat q s : string) :
  startswith pat q = true -> str_in q s = false -> str_in pat s = false.
Proof.
  intros Hq. apply str_in_weaken_sub.
  destruct pat; simpl; [exact Hq | now rewrite Hq].
Qed.

Lemma str_in_app_l (sub a b : string) :
  str_in sub (a ++ b) = false -> str_in sub a = false.
Proof.
  intros H. destruct (str_in sub a) eqn:E; [|reflexivity].
  apply str_in_iff in E as [u [v ->]].
  assert (Hc : str_in sub ((u ++ sub ++ v) ++ b) = true).
  { apply str_in_iff. exists u, (v ++ b). now rewrite !append_assoc. }
  congruence.
Qed.

(** ** [re.sub] *)

(** Where the pattern does not occur, nothing is rewritten. *)
Lemma re_sub_absent (pat repl s : string) :
  str_in pat s = false -> re_sub pat repl s = s.
Proof.
  unfold re_sub. induction s as [|c s IH]; intros H; [reflexivity|].
  apply str_in_cons_false in H as [H1 H2].
  cbn [sub_from]. rewrite H1. now rewrite IH.
Qed.

(** ** A character that the pattern does not have

    No match reaches across such a character, so the text is rewritten
    on either side of it independently. *)

Section Separator.

Variables (pat repl : string) (c : ascii).
Hypothesis pat_nonempty : pat <> "".
Hypothesis c_fresh : str_in (String c "") pat = false.

Lemma startswith_sep (a b : string) :
  startswith (a ++ String c b) pat = startswith a pat.
Proof.
  clear pat_nonempty. revert a c_fresh.
  induction pat as [|p q IH]; intros a Hc; [reflexivity|].
  apply str_in_cons_false in Hc as [Hp Hq].
  destruct a as [|x a]; cbn [append startswith].
  - cbn [startswith] in Hp. rewrite andb_true_r in Hp.
    now rewrite Ascii.eqb_sym, Hp.
  - now rewrite IH.
Qed.

Lemma startswith_length (a q : string) :
  startswith a q = true -> String.length q <= String.length a.
Proof.
  revert a; induction q as [|p q IH]; intros a H; [simpl; lia|].
  destruct a as [|x a]; [discriminate|].
  cbn [startswith] in H. apply andb_true_iff in H as [_ H].
  apply IH in H. simpl. lia.
Qed.

Lemma sub_from_sep (k : nat) (a b : string) :
  k <= String.length a ->
  sub_from k pat repl (a ++ String c b)
  = sub_from k pat repl a ++ String c (sub_from 0 pat repl b).
Proof.
  revert k; induction a as [|x a IH]; intros k Hk.
  - assert (k = 0) as -> by (simpl in Hk; lia).
    pose proof (startswith_sep "" b) as E. cbn [append] in E.
    cbn [append sub_from]. rewrite E.
    destruct pat; [contradiction | reflexivity].
  - pose proof (startswith_sep (String x a) b) as E0.
    change (String x a ++ String c b) with (String x (a ++ String c b)) in *.
    destruct k as [|k]; cbn [sub_from].
    + rewrite E0.
      destruct (startswith (String x a) pat) eqn:E.
      * apply startswith_length in E. simpl in E.
        rewrite IH by lia. now rewrite append_assoc.
      * rewrite IH by lia. reflexivity.
    + apply IH. simpl in Hk. lia.
Qed.

Lemma re_sub_sep (a b : string) :
  re_sub pat repl (a ++ String c b)
  = re_sub pat repl a ++ String c (re_sub pat repl b).
Proof. apply sub_from_sep. lia. Qed.

Lemma str_in_sep (a b : string) :
  str_in pat (a ++ String c b) = str_in pat a || str_in pat b.
Proof.
  induction a as [|x a IH].
  - pose proof (startswith_sep "" b) as E. cbn [append] in E.
    cbn [append str_in]. rewrite E.
    destruct pat; [contradiction | reflexivity].
  - pose proof (startswith_sep (String x a) b) as E0.
    change (String x a ++ String c b) with (String x (a ++ String c b)) in *.
    cbn [str_in]. rewrite E0, IH.
    now rewrite orb_assoc.
Qed.

End Separator.

(** ** Patterns that begin with [_(]

    Both tidy-up patterns begin with [_(]; a stretch of text without
    [_(] is copied unchanged and cannot meet a match. *)

Lemma startswith_up (x : ascii) (s : string) :
  startswith (String x s) "_(" = Ascii.eqb x "_" && startswith s "(".
Proof. reflexivity. Qed.

Lemma startswith_paren (x : ascii) (s : string) :
  startswith (String x s) "(" = Ascii.eqb x "(".
Proof. cbn [startswith]. apply andb_true_r. Qed.

Lemma up_head (x h : ascii) (P t : string) :
  startswith (String x (P ++ String h t)) "_("
  = startswith (String x (P ++ String h "")) "_(".
Proof. destruct P; reflexivity. Qed.

Section Underscore_paren.

Variables pat repl : string.
Hypothesis pat_up : startswith pat "_(" = true.

Lemma up_no_match (x h : ascii) (P t : string) :
  startswith (String x (P ++ String h "")) "_(" = false ->
  startswith (String x (P ++ String h t)) pat = false.
Proof.
  intros H.
  destruct (startswith (String x (P ++ String h t)) pat) eqn:E; [|reflexivity].
  pose proof (startswith_trans _ _ _ E pat_up) as E'.
  rewrite up_head in E'. congruence.
Qed.

Lemma re_sub_skip (P : string) (h : ascii) (t : string) :
  str_in "_(" (P ++ String h "") = false ->
  re_sub pat repl (P ++ String h t) = P ++ re_sub pat repl (String h t).
Proof.
  unfold re_sub. induction P as [|x P IH]; intros H; [reflexivity|].
  change (str_in "_(" (String x (P ++ String h "")) = false) in H.
  apply str_in_cons_false in H as [H1 H2].
  change (sub_from 0 pat repl (String x (P ++ String h t))
          = String x (P ++ sub_from 0 pat repl (String h t))).
  cbn [sub_from]. rewrite (up_no_match _ _ _ _ H1). now rewrite IH.
Qed.

Lemma str_in_skip (P : string) (h : ascii) (t : string) :
  str_in "_(" (P ++ String h "") = false ->
  str_in pat (P ++ String h t) = str_in pat (String h t).
Proof.
  induction P as [|x P IH]; intros H; [reflexivity|].
  change (str_in "_(" (String x (P ++ String h "")) = false) in H.
  apply str_in_cons_false in H as [H1 H2].
  change (str_in pat (String x (P ++ String h t)) = str_in pat (String h t)).
  cbn [str_in]. rewrite (up_no_match _ _ _ _ H1). now rewrite IH.
Qed.

Lemma re_sub_up_free (s : string) :
  str_in "_(" s = false -> re_sub pat repl s = s.
Proof. intros H. apply re_sub_absent. now apply str_in_weaken with "_(". Qed.

Lemma str_in_up_free (s : string) :
  str_in "_(" s = false -> str_in pat s = false.
Proof. now apply str_in_weaken. Qed.

End Underscore_paren.

(** Two texts without [_(] concatenate to one, unless the second begins
    with a parenthesis. *)
Lemma str_in_up_app (a b : string) :
  str_in "_(" a = false -> str_in "_(" b = false ->
  startswith b "(" = false ->
  str_in "_(" (a ++ b) = false.
Proof.
  intros Ha Hb Hp. induction a as [|x a IH]; [exact Hb|].
  apply str_in_cons_false in Ha as [H1 H2].
  change (str_in "_(" (String x (a ++ b)) = false).
  cbn [str_in]. rewrite (IH H2), orb_false_r.
  destruct a as [|y a]; [|exact H1].
  cbn [append startswith]. cbn [startswith] in Hp.
  now rewrite Hp, andb_false_r.
Qed.

(** ** Quoting the type tokens *)

Lemma quote_app (a b : string) :
  re_sub ";" "`;`" (a ++ b) = re_sub ";" "`;`" a ++ re_sub ";" "`;`" b.
Proof.
  unfold re_sub. induction a as [|x a IH]; [reflexivity|].
  change (sub_from 0 ";" "`;`" (String x (a ++ b))
          = sub_from 0 ";" "`;`" (String x a) ++ sub_from 0 ";" "`;`" b).
  cbn [sub_from startswith String.length Nat.sub].
  destruct (Ascii.eqb x ";"); simpl; now rewrite IH.
Qed.

Lemma quote_paren (s : string) :
  startswith (re_sub ";" "`;`" s) "(" = startswith s "(".
Proof.
  destruct s as [|x s]; [reflexivity|].
  unfold re_sub. cbn [sub_from startswith String.length Nat.sub].
  destruct (Ascii.eqb_spec x ";") as [->|]; reflexivity.
Qed.

Lemma quote_up_free (s : string) :
  str_in "_(" s = false -> str_in "_(" (re_sub ";" "`;`" s) = false.
Proof.
  induction s as [|x s IH]; intros H; [reflexivity|].
  apply str_in_cons_false in H as [H1 H2]. specialize (IH H2).
  change (String x s) with (String x "" ++ s). rewrite quote_app.
  unfold re_sub at 1. cbn [sub_from startswith String.length Nat.sub].
  destruct (Ascii.eqb x ";").
  - exact IH.
  - cbn [andb append str_in]. rewrite IH, orb_false_r.
    rewrite startswith_up in H1 |- *. now rewrite quote_paren.
Qed.

(** ** The tidy-up of lines 59-60 *)

Local Abbreviation tidy s := (re_sub "_(; " "_(" (re_sub "_()_" "" s)).

Local Abbreviation clean s :=
  (str_in "_()_" s = false /\ str_in "_(; " s = false).

Lemma clean_up_free (s : string) : str_in "_(" s = false -> clean s.
Proof. intros H. split; apply str_in_up_free; (reflexivity || exact H). Qed.

(** A text that holds neither pattern is left as it is. *)
Lemma tidy_clean (s : string) : clean s -> tidy s = s.
Proof.
  intros [H1 H2]. rewrite (re_sub_absent _ _ _ H1). apply re_sub_absent, H2.
Qed.

Lemma clean_tidy (s : string) : clean s -> clean (tidy s).
Proof. intros H. now rewrite (tidy_clean _ H). Qed.

(** [P] is a text without [_(] in front of a [_(]. *)
Section Tidy.

Variable P : string.
Hypothesis P_free : str_in "_(" (P ++ "_") = false.

(** An empty parenthetical is removed. *)
Lemma tidy_empty (I : string) :
  str_in "_(" I = false -> startswith I "(" = false ->
  tidy (P ++ "_()_" ++ I) = P ++ I.
Proof.
  intros HI Hp.
  change (P ++ "_()_" ++ I) with (P ++ String "_" ("()_" ++ I)).
  rewrite re_sub_skip by (reflexivity || exact P_free).
  replace (re_sub "_()_" "" (String "_" ("()_" ++ I))) with (re_sub "_()_" "" I)
    by (destruct I; reflexivity).
  rewrite (re_sub_up_free "_()_") by (reflexivity || exact HI).
  apply re_sub_up_free; [reflexivity|].
  apply str_in_up_app; [now apply str_in_app_l with "_" | exact HI | exact Hp].
Qed.

Lemma clean_empty (I : string) :
  str_in "_(" I = false -> startswith I "(" = false ->
  clean (tidy (P ++ "_()_" ++ I)).
Proof.
  intros HI Hp. rewrite tidy_empty by assumption.
  apply clean_up_free, str_in_up_app;
    [now apply str_in_app_l with "_" | exact HI | exact Hp].
Qed.

(** The opening [_(] of the version clause stays, and the tidy-up goes on
    behind the [P] of [PDF]. *)
Lemma tidy_version (W : string) :
  tidy (P ++ "_(P" ++ W) = P ++ "_(P" ++ tidy W.
Proof.
  change (P ++ "_(P" ++ W) with (P ++ String "_" ("(P" ++ W)).
  rewrite re_sub_skip by (reflexivity || exact P_free).
  change (re_sub "_()_" "" (String "_" ("(P" ++ W)))
    with (String "_" ("(P" ++ re_sub "_()_" "" W)).
  rewrite re_sub_skip by (reflexivity || exact P_free).
  reflexivity.
Qed.

Lemma clean_version (W : string) :
  clean (tidy W) -> clean (tidy (P ++ "_(P" ++ W)).
Proof.
  rewrite tidy_version.
  change (P ++ "_(P" ++ tidy W) with (P ++ String "_" ("(P" ++ tidy W)).
  rewrite !str_in_skip by (reflexivity || exact P_free).
  exact (fun H => H).
Qed.

(** Behind [_(] comes [c], and no pattern matches there. *)
Variables (c : ascii) (Y : string).
Hypothesis Y_free : str_in "_(" (String c Y) = false.
Hypothesis no_empty : startswith ("_(" ++ String c Y) "_()_" = false.
Hypothesis no_sep : startswith ("_(" ++ String c Y) "_(; " = false.

Lemma clean_open : clean (P ++ "_(" ++ String c Y).
Proof.
  change (P ++ "_(" ++ String c Y) with (P ++ String "_" (String "(" (String c Y))).
  rewrite !str_in_skip by (reflexivity || exact P_free).
  split; rewrite str_in_cons.
  - change (startswith (String "_" (String "(" (String c Y))) "_()_")
      with (startswith ("_(" ++ String c Y) "_()_").
    rewrite no_empty. apply str_in_up_free; [reflexivity | exact Y_free].
  - change (startswith (String "_" (String "(" (String c Y))) "_(; ")
      with (startswith ("_(" ++ String c Y) "_(; ").
    rewrite no_sep. apply str_in_up_free; [reflexivity | exact Y_free].
Qed.

(** Such a parenthetical is left as it is. *)
Lemma clean_plain : clean (tidy (P ++ "_(" ++ String c Y)).
Proof. apply clean_tidy, clean_open. Qed.

(** The separator of a first clause without a version is dropped. *)
Lemma tidy_sep :
  tidy (P ++ "_(; " ++ String c Y) = P ++ "_(" ++ String c Y.
Proof.
  change (P ++ "_(; " ++ String c Y)
    with (P ++ String "_" (String "(" (String ";" (String " " (String c Y))))).
  rewrite (re_sub_absent "_()_").
  2:{ rewrite str_in_skip by (reflexivity || exact P_free).
      rewrite str_in_cons.
      apply str_in_up_free; [reflexivity | exact Y_free]. }
  rewrite re_sub_skip by (reflexivity || exact P_free).
  f_equal.
  change (re_sub "_(; " "_(" (String "_" (String "(" (String ";" (String " " (String c Y))))))
    with ("_(" ++ re_sub "_(; " "_(" (String c Y)).
  f_equal. apply re_sub_up_free; [reflexivity | exact Y_free].
Qed.

Lemma clean_sep : clean (tidy (P ++ "_(; " ++ String c Y)).
Proof. rewrite tidy_sep. exact clean_open. Qed.

End Tidy.

(** ** A version field that holds [_(]

    The version is kept when it has three characters, whatever they are.
    It is followed by a separator or by the closing parenthesis, so a
    [_(] in its first two characters meets no pattern, and one in its
    last two characters opens a parenthetical of its own. *)

Lemma length_3 (s : string) :
  (String.length s =? 3)%nat = true ->
  exists a b c, s = String a (String b (String c "")).
Proof.
  intros H. apply Nat.eqb_eq in H.
  destruct s as [|a [|b [|c [|d s]]]]; try discriminate.
  now exists a, b, c.
Qed.

Lemma version_guard (a : ascii) :
  str_in "_(" (("DF " ++ String a "") ++ "_") = false.
Proof.
  cbn [append]. rewrite !str_in_cons, !startswith_up, !startswith_paren.
  destruct (Ascii.eqb a "_"); reflexivity.
Qed.

Lemma version_up_free (a b c : ascii) (Z : string) :
  Ascii.eqb a "_" && Ascii.eqb b "(" = false ->
  Ascii.eqb b "_" && Ascii.eqb c "(" = false ->
  str_in "_(" Z = false -> startswith Z "(" = false ->
  str_in "_(" ("DF " ++ String a (String b (String c Z))) = false.
Proof.
  intros E1 E2 HZ Hp. cbn [append].
  rewrite !str_in_cons, !startswith_up, !startswith_paren.
  rewrite E1, E2, HZ, Hp, !andb_false_r. reflexivity.
Qed.

Lemma version_head_clean (c z : ascii) (Z : string) :
  Ascii.eqb z "(" = false -> Ascii.eqb z "_" = false -> Ascii.eqb z " " = false ->
  str_in "_(" (String z Z) = false ->
  clean (tidy ("DF " ++ "_(" ++ String c (String z Z))).
Proof.
  intros Hp Hu Hs HZ.
  refine (clean_plain "DF " eq_refl c (String z Z) _ _ _).
  - rewrite str_in_cons, startswith_up, startswith_paren, HZ, Hp.
    now rewrite andb_false_r.
  - cbn [append startswith]. rewrite Hu, !andb_false_r. reflexivity.
  - cbn [append startswith]. rewrite Hs, !andb_false_r. reflexivity.
Qed.

(** ** Quoting keeps what has neither [;] nor a back-quote *)

Lemma startswith_quote (pat x : string) :
  str_in ";" pat = false -> str_in "`" pat = false ->
  startswith (re_sub ";" "`;`" x) pat = startswith x pat.
Proof.
  revert x; induction pat as [|p q IH]; intros x Hs Ht; [reflexivity|].
  apply str_in_cons_false in Hs as [Hs Hs'].
  apply str_in_cons_false in Ht as [Ht Ht'].
  cbn [startswith] in Hs, Ht. rewrite andb_true_r in Hs, Ht.
  destruct x as [|c x]; [reflexivity|].
  change (String c x) with (String c "" ++ x) at 1. rewrite quote_app.
  unfold re_sub at 1. cbn [sub_from startswith String.length Nat.sub].
  destruct (Ascii.eqb_spec c ";") as [->|Hc].
  - cbn [andb append startswith].
    now rewrite (Ascii.eqb_sym "`" p), (Ascii.eqb_sym ";" p), Ht, Hs.
  - cbn [andb append startswith]. now rewrite IH.
Qed.

Lemma str_in_quote (pat x : string) :
  pat <> "" -> str_in ";" pat = false -> str_in "`" pat = false ->
  str_in pat (re_sub ";" "`;`" x) = str_in pat x.
Proof.
  intros Hne Hs Ht. induction x as [|c x IH]; [reflexivity|].
  rewrite str_in_cons, <- (startswith_quote pat (String c x)) by assumption.
  change (String c x) with (String c "" ++ x). rewrite quote_app.
  unfold re_sub at 1 3. cbn [sub_from startswith String.length Nat.sub].
  destruct (Ascii.eqb_spec c ";") as [->|Hc]; cbn [andb append].
  - rewrite !str_in_cons, IH.
    destruct pat as [|p q]; [contradiction|].
    apply str_in_cons_false in Hs as [Hs _].
    apply str_in_cons_false in Ht as [Ht _].
    cbn [startswith] in Hs, Ht |- *. rewrite andb_true_r in Hs, Ht.
    now rewrite (Ascii.eqb_sym "`" p), (Ascii.eqb_sym ";" p), Ht, Hs.
  - now rewrite str_in_cons, IH.
Qed.

(** In a quoted text every [;] is followed by a back-quote. *)
Lemma quote_no_sep (x : string) :
  str_in "; " (re_sub ";" "`;`" x) = false.
Proof.
  induction x as [|c x IH]; [reflexivity|].
  change (String c x) with (String c "" ++ x). rewrite quote_app.
  unfold re_sub at 1. cbn [sub_from startswith String.length Nat.sub].
  destruct (Ascii.eqb_spec c ";") as [->|Hc]; cbn [andb append].
  - exact IH.
  - rewrite str_in_cons, IH, orb_false_r. cbn [startswith].
    apply Ascii.eqb_neq in Hc. now rewrite Hc.
Qed.

(** ** The documentation builder *)

Lemma str_in_up_lit (x : ascii) (s : string) :
  Ascii.eqb x "_" = false -> str_in "_(" s = false ->
  str_in "_(" (String x s) = false.
Proof.
  intros Hx Hs. rewrite str_in_cons, startswith_up, Hx, Hs. reflexivity.
Qed.

(** Freedom from [_(] of a text made of literals and of fields that are
    known to be free of it. *)
Ltac up_free :=
  repeat first
    [ assumption
    | reflexivity
    | apply str_in_up_lit; [reflexivity|]
    | apply str_in_up_app; [assumption| |reflexivity] ].

(** Line 46 rewrites the separators of [Type] only: the text around it
    has none. *)
Lemma quoted_type (T : string) :
  re_sub ";" "`;`" (("`" ++ T) ++ "` _(")
  = ("`" ++ re_sub ";" "`;`" T ++ "` ") ++ "_(".
Proof. now rewrite !quote_app, !append_assoc. Qed.

Lemma quoted_type_free (T : string) :
  str_in "_(" T = false ->
  str_in "_(" (("`" ++ re_sub ";" "`;`" T ++ "` ") ++ "_") = false.
Proof.
  intros H. apply quote_up_free in H.
  rewrite !append_assoc. cbn [append]. up_free.
Qed.

(** The shapes of the text behind [P]: an empty parenthetical, one whose
    first clause brings a separator, one that opens with the version
    clause. *)
Ltac tidy_shape P HP :=
  lazymatch goal with
  | |- context [P ++ String "_" (String "(" (String ")" (String "_" ?I)))] =>
      refine (clean_empty P HP I _ _)
  | |- context [P ++ String "_" (String "(" (String ";" (String " " (String ?c ?Y))))] =>
      refine (clean_sep P HP c Y _ eq_refl eq_refl)
  | |- context [P ++ String "_" (String "(" (String "P" ?W))] =>
      refine (clean_version P HP W _)
  end.

(** Behind the [P] of the version clause: the version begins with [_(],
    or ends with it, or does not hold it. *)
Ltac version_head :=
  lazymatch goal with
  | |- context [String " " (String "_" (String "(" (String ?c (String ?z ?Z))))] =>
      refine (version_head_clean c z Z eq_refl eq_refl eq_refl _)
  end.

Ltac version_tail a :=
  lazymatch goal with
  | |- context [String a (String "_" (String "(" (String ")" (String "_" ?I))))] =>
      refine (clean_empty ("DF " ++ String a "") (version_guard a) I _ _)
  | |- context [String a (String "_" (String "(" (String ";" (String " " (String ?c ?Y)))))] =>
      refine (clean_sep ("DF " ++ String a "") (version_guard a) c Y _ eq_refl eq_refl)
  end.

Ltac version_free a b c E1 E2 :=
  lazymatch goal with
  | |- context [String a (String b (String c ?Z))] =>
      apply clean_tidy, clean_up_free;
      refine (version_up_free a b c Z E1 E2 _ _)
  end.

(** C1 (as amended).  For every row whose Type and DeprecatedIn fields do
    not contain the two characters [_(], the documentation string
    contains neither [_()_] nor [_(; ], whatever the SinceVersion,
    Required and IndirectReference fields are. *)
Theorem documentation_is_tidy (row : NumberedRow) :
  str_in "_(" (Type_ (fields row)) = false ->
  str_in "_(" (DeprecatedIn (fields row)) = false ->
  str_in "_()_" (CreateVSCodeCompletionDocumentation row) = false /\
  str_in "_(; " (CreateVSCodeCompletionDocumentation row) = false.
Proof.
  intros HT HD.
  unfold CreateVSCodeCompletionDocumentation. cbv zeta.
  rewrite quoted_type.
  pose proof (quoted_type_free _ HT) as HP.
  set (P := "`" ++ re_sub ";" "`;`" (Type_ (fields row)) ++ "` ") in *.
  destruct (String.length (SinceVersion (fields row)) =? 3)%nat eqn:EL.
  - apply length_3 in EL as (a & b & c & ->).
    destruct (Ascii.eqb a "_" && Ascii.eqb b "(") eqn:E1;
      [ apply andb_true_iff in E1 as [Ea Eb];
        apply Ascii.eqb_eq in Ea, Eb; subst a b
      | destruct (Ascii.eqb b "_" && Ascii.eqb c "(") eqn:E2;
        [ apply andb_true_iff in E2 as [Eb Ec];
          apply Ascii.eqb_eq in Eb, Ec; subst b c | ] ];
    destruct (Required (fields row) =? "TRUE")%string;
    destruct (Required (fields row) =? "FALSE")%string;
    destruct (DeprecatedIn (fields row) =? "")%string;
    destruct (IndirectReference (fields row) =? "TRUE")%string;
    cbn [negb]; rewrite ?append_assoc; cbn [append];
    tidy_shape P HP;
    first [ version_head | version_tail a | version_free a b c E1 E2 ];
    up_free.
  - destruct (Required (fields row) =? "TRUE")%string;
    destruct (Required (fields row) =? "FALSE")%string;
    destruct (DeprecatedIn (fields row) =? "")%string;
    destruct (IndirectReference (fields row) =? "TRUE")%string;
    cbn [negb]; rewrite ?append_assoc; cbn [append];
    tidy_shape P HP; up_free.
Qed.

(** C1 (counterexample).  A DeprecatedIn field that itself holds the
    text [_(; )_] leaves [_()_] in the documentation: the second
    substitution produces it after the first one has run. *)
Lemma documentation_keeps_empty_parenthetical :
  let row := mkNumbered (mkRow "Catalog" "Type" "name" "" "_(; )_" "" "" "" "" "" "" "") 1 in
  CreateVSCodeCompletionDocumentation row = "`name` _(Deprecated in PDF _()_)_"
  /\ str_in "_()_" (CreateVSCodeCompletionDocumentation row) = true.
Proof. split; reflexivity. Qed.

Lemma documentation_is_tidy_witness :
  let row := mkNumbered (mkRow "Catalog" "Type" "array;boolean" "1.2" "1.4" "TRUE" "TRUE" "" "" "" "" "") 1 in
  str_in "_()_" (CreateVSCodeCompletionDocumentation row) = false /\
  str_in "_(; " (CreateVSCodeCompletionDocumentation row) = false.
Proof. apply documentation_is_tidy; reflexivity. Defined.

(** C2.  The row of the comment above the builder (lines 39-43): each type
    token is back-quoted on its own, the three clauses are joined by
    [; ] inside the parenthetical, and the sentence on the indirect
    reference follows it.  The other fields and the identifier are
    arbitrary. *)
Theorem documentation_example
    (object key inheritable default possible special link : string) (data : Z) :
  CreateVSCodeCompletionDocumentation
    (mkNumbered
       (mkRow object key "array;boolean" "1.2" "1.4" "TRUE" "TRUE"
              inheritable default possible special link)
       data)
  = "`array`;`boolean` _(PDF 1.2; Required; Deprecated in PDF 1.4)_ Must be indirect reference.".
Proof. reflexivity. Qed.

(** C3 (counterexample).  With no clause at all the parenthetical is
    removed, but the space that preceded it stays: the result for the type
    [integer] is not the quoted type alone. *)
Lemma documentation_bare_type_has_space :
  let row := mkNumbered (mkRow "Catalog" "Type" "integer" "" "" "" "" "" "" "" "" "") 1 in
  String.length (SinceVersion (fields row)) <> 3
  /\ Required (fields row) <> "TRUE" /\ Required (fields row) <> "FALSE"
  /\ DeprecatedIn (fields row) = ""
  /\ IndirectReference (fields row) <> "TRUE"
  /\ CreateVSCodeCompletionDocumentation row = "`integer` "
  /\ CreateVSCodeCompletionDocumentation row
     <> ("`" ++ re_sub ";" "`;`" (Type_ (fields row))) ++ "`".
Proof. cbv zeta. repeat split; (reflexivity || discriminate). Qed.

(** C3 (as amended).  For every row without a version of length 3, with
    a Required field that is neither [TRUE] nor [FALSE], an empty
    DeprecatedIn field and an IndirectReference field other than [TRUE],
    and whose Type does not contain [_()_], the documentation string is
    the type with every [;] replaced by [`;`], between back-quotes,
    followed by one space. *)
Theorem documentation_bare_type (row : NumberedRow) :
  String.length (SinceVersion (fields row)) <> 3 ->
  Required (fields row) <> "TRUE" ->
  Required (fields row) <> "FALSE" ->
  DeprecatedIn (fields row) = "" ->
  IndirectReference (fields row) <> "TRUE" ->
  str_in "_()_" (Type_ (fields row)) = false ->
  CreateVSCodeCompletionDocumentation row
  = ("`" ++ re_sub ";" "`;`" (Type_ (fields row))) ++ "` ".
Proof.
  intros HS HR1 HR2 HD HI HT.
  unfold CreateVSCodeCompletionDocumentation. cbv zeta.
  apply Nat.eqb_neq in HS. apply String.eqb_neq in HR1, HR2, HI.
  rewrite HS, HR1, HR2, HI, HD. cbn [String.eqb negb].
  rewrite quoted_type, !append_assoc.
  set (T := re_sub ";" "`;`" (Type_ (fields row))).
  assert (H1 : str_in "_()_" T = false).
  { unfold T. rewrite str_in_quote by (discriminate || reflexivity). exact HT. }
  assert (H2 : str_in "_(; " T = false).
  { apply str_in_weaken_sub with "; "; [reflexivity | apply quote_no_sep]. }
  change ("`" ++ T ++ "` " ++ "_(" ++ ")_") with ("" ++ String "`" (T ++ String "`" " _()_")).
  rewrite (re_sub_sep "_()_"), (re_sub_sep "_()_") by (discriminate || reflexivity).
  rewrite (re_sub_absent _ _ _ H1).
  change (re_sub "_()_" "" " _()_") with " ". change (re_sub "_()_" "" "") with "".
  rewrite (re_sub_sep "_(; "), (re_sub_sep "_(; ") by (discriminate || reflexivity).
  rewrite (re_sub_absent _ _ _ H2).
  reflexivity.
Qed.

Lemma documentation_bare_type_witness :
  CreateVSCodeCompletionDocumentation
    (mkNumbered (mkRow "Catalog" "Type" "array;boolean" "" "" "" "FALSE" "" "" "" "" "") 7)
  = "`array`;`boolean` ".
Proof.
  apply (documentation_bare_type
           (mkNumbered (mkRow "Catalog" "Type" "array;boolean" "" "" "" "FALSE" "" "" "" "" "") 7));
    (reflexivity || discriminate).
Defined.

(** C8.  For every row whose Required field is neither [TRUE] nor
    [FALSE], the builder returns the string it builds from the other
    clauses alone: the Required clause appends nothing.  The builder is a
    total function, so there is no failure. *)
Theorem documentation_unrecognised_Required (row : NumberedRow) :
  Required (fields row) <> "TRUE" ->
  Required (fields row) <> "FALSE" ->
  CreateVSCodeCompletionDocumentation row = documentation_without_Required row.
Proof.
  intros H1 H2.
  unfold CreateVSCodeCompletionDocumentation, documentation_without_Required.
  apply String.eqb_neq in H1, H2. now rewrite H1, H2.
Qed.

Lemma documentation_unrecognised_Required_witness :
  let row := mkNumbered (mkRow "Catalog" "Type" "name" "1.3" "2.0" "maybe" "TRUE" "" "" "" "" "") 4 in
  CreateVSCodeCompletionDocumentation row = documentation_without_Required row
  /\ CreateVSCodeCompletionDocumentation row
     = "`name` _(PDF 1.3; Deprecated in PDF 2.0)_ Must be indirect reference.".
Proof.
  cbv zeta. split; [|reflexivity].
  apply documentation_unrecognised_Required; discriminate.
Defined.

(** C10.  Two rows that agree on Type, SinceVersion, Required,
    DeprecatedIn and IndirectReference get the same documentation string,
    whatever their other fields and their identifiers are.  The builder
    is a function of the row alone: it neither reads nor writes
    [rowCount]. *)
Theorem documentation_depends_on_five_fields (row1 row2 : NumberedRow) :
  Type_ (fields row1) = Type_ (fields row2) ->
  SinceVersion (fields row1) = SinceVersion (fields row2) ->
  Required (fields row1) = Required (fields row2) ->
  DeprecatedIn (fields row1) = DeprecatedIn (fields row2) ->
  IndirectReference (fields row1) = IndirectReference (fields row2) ->
  CreateVSCodeCompletionDocumentation row1 = CreateVSCodeCompletionDocumentation row2.
Proof.
  intros HT HS HR HD HI. unfold CreateVSCodeCompletionDocumentation.
  now rewrite HT, HS, HR, HD, HI.
Qed.

Lemma documentation_depends_on_five_fields_witness :
  CreateVSCodeCompletionDocumentation
    (mkNumbered (mkRow "Catalog" "Type" "name" "1.0" "" "TRUE" "FALSE" "FALSE" "" "[Catalog]" "" "") 1)
  = CreateVSCodeCompletionDocumentation
    (mkNumbered (mkRow "Page" "Kind" "name" "1.0" "" "TRUE" "FALSE" "TRUE" "x" "" "y" "z") 42).
Proof. apply documentation_depends_on_five_fields; reflexivity. Defined.

(** ** The pipeline *)

(** [s.find(sub) != -1] tests whether [sub] occurs in [s]. *)
Lemma str_find_lower (s sub : string) : (-1 <= str_find s sub)%Z.
Proof.
  induction s as [|c s IH]; cbn [str_find].
  - destruct (startswith "" sub); lia.
  - destruct (startswith (String c s) sub); [lia|].
    destruct (str_find s sub =? -1)%Z; lia.
Qed.

Lemma str_find_in (s sub : string) :
  negb (str_find s sub =? -1)%Z = str_in sub s.
Proof.
  induction s as [|c s IH]; cbn [str_find str_in].
  - destruct (startswith "" sub); reflexivity.
  - destruct (startswith (String c s) sub); [reflexivity|].
    rewrite <- IH. cbn [orb].
    pose proof (str_find_lower s sub).
    destruct (Z.eqb_spec (str_find s sub) (-1)) as [E|E]; [reflexivity|].
    cbn [negb]. apply negb_true_iff, Z.eqb_neq. lia.
Qed.

(** The identifiers handed out by the calls on the rows of a frame, from
    the counter value [c]. *)
Lemma apply_Data {A} (df : Frame A) (c : Z) :
  apply_rows (fun row => CreateVSCodeCompletionData (Some row)) df c
  = (inr (combine (index df)
                  (map (fun k => (c + Z.of_nat k)%Z) (seq 0 (List.length df)))),
     (c + Z.of_nat (List.length df))%Z).
Proof.
  revert c; induction df as [|[i r] df IH]; intros c.
  - cbn. unfold ret. do 2 f_equal. lia.
  - cbn [apply_rows]. unfold bind at 1. cbn [CreateVSCodeCompletionData].
    unfold bind at 1. rewrite IH. unfold ret.
    cbn [List.length seq map index combine fst].
    rewrite <- seq_shift, map_map.
    f_equal; [|lia]. f_equal. f_equal; [f_equal; lia|].
    f_equal. apply map_ext. intros k. lia.
Qed.

Lemma apply_pure {A B} (f : A -> B) (df : Frame A) (c : Z) :
  apply_rows (fun row => ret (f row)) df c
  = (inr (map (fun '(i, r) => (i, f r)) df), c).
Proof.
  induction df as [|[i r] df IH]; [reflexivity|].
  cbn [apply_rows map]. unfold bind at 1. unfold ret at 1.
  unfold bind at 1. now rewrite IH.
Qed.

Lemma setitem_Data (df : Frame Row) (c : Z) (start : nat) :
  map snd
    (setitem mkNumbered df
       (combine (index df)
                (map (fun k => (c + Z.of_nat k)%Z) (seq start (List.length df)))))
  = map (fun '(k, r) => mkNumbered r (c + Z.of_nat k)%Z)
        (combine (seq start (List.length df)) (map snd df)).
Proof.
  revert start; induction df as [|[i r] df IH]; intros start; [reflexivity|].
  cbn [List.length seq map index combine fst snd setitem].
  f_equal. apply IH.
Qed.

Lemma setitem_pure {A B C} (mk : A -> B -> C) (f : A -> B) (df : Frame A) :
  setitem mk df (map (fun '(i, r) => (i, f r)) df)
  = map (fun '(i, r) => (i, mk r (f r))) df.
Proof.
  induction df as [|[i r] df IH]; [reflexivity|].
  cbn [map setitem]. now rewrite IH.
Qed.

(** The steps behind the filter (lines 82-85), on a frame with rows: the
    records are the rows of the frame in its order, numbered from the
    counter value [c] in steps of one, each with the documentation of its
    row, and the counter has advanced by the number of rows. *)
Lemma add_columns_records (df : Frame Row) (c : Z) :
  df <> [] ->
  add_columns df c
  = (inr (map (fun '(k, r) =>
                 let row := mkNumbered r (c + Z.of_nat k)%Z in
                 mkItem row (CreateVSCodeCompletionDocumentation row))
              (combine (seq 0 (List.length df)) (map snd df))),
     (c + Z.of_nat (List.length df))%Z).
Proof.
  intros Hdf. destruct df as [|[i0 r0] df0] eqn:Edf; [contradiction|].
  rewrite <- Edf. clear Hdf.
  assert (A1 : apply (fun row => CreateVSCodeCompletionData row) df
               = (values <- apply_rows (fun row => CreateVSCodeCompletionData (Some row)) df ;;
                  ret (Column values))) by now rewrite Edf.
  unfold add_columns. unfold bind at 1. rewrite A1.
  unfold bind at 1. rewrite apply_Data. unfold ret at 1.
  unfold bind at 1. unfold lift at 1. cbn [setitem_applied].
  set (df1 := setitem mkNumbered df _).
  assert (A2 : apply documentation_of df1
               = (values <- apply_rows (fun row => ret (CreateVSCodeCompletionDocumentation row)) df1 ;;
                  ret (Column values))).
  { unfold df1. rewrite Edf. reflexivity. }
  unfold bind at 1. rewrite A2.
  unfold bind at 1. rewrite apply_pure. unfold ret at 1.
  unfold bind at 1. unfold lift at 1. cbn [setitem_applied]. unfold ret.
  f_equal. f_equal. rewrite setitem_pure. unfold to_json_records.
  transitivity (map (fun nr => mkItem nr (CreateVSCodeCompletionDocumentation nr))
                  (map snd df1)).
  - rewrite !map_map. apply map_ext. now intros [i r].
  - unfold df1. rewrite setitem_Data, map_map. apply map_ext. now intros [k r].
Qed.


Lemma map_combine_fst {A B C} (g : A -> C) (ks : list A) (rs : list B) :
  List.length ks = List.length rs ->
  map (fun '(k, _) => g k) (combine ks rs) = map g ks.
Proof.
  revert rs; induction ks as [|k ks IH]; intros [|r rs] H;
    try discriminate; [reflexivity|].
  cbn. f_equal. apply IH. now injection H.
Qed.


Lemma add_columns_Data (df : Frame Row) (c : Z) (out : list Item) :
  fst (add_columns df c) = inr out ->
  map (fun item => Data (numbered item)) out
  = map (fun k => (c + Z.of_nat k)%Z) (seq 0 (List.length df))
  /\ NoDup (map (fun item => Data (numbered item)) out).
Proof.
  intros H.
  assert (Hdf : df <> []) by (intros ->; discriminate H).
  rewrite (add_columns_records df c Hdf) in H. cbn [fst] in H. injection H as H.
  assert (E : map (fun item => Data (numbered item)) out
              = map (fun k => (c + Z.of_nat k)%Z) (seq 0 (List.length df))).
  { subst out. rewrite map_map.
    rewrite <- (map_combine_fst (fun k => (c + Z.of_nat k)%Z) _ (map snd df))
      by now rewrite length_seq, length_map.
    apply map_ext. now intros [k r]. }
  rewrite E. split; [reflexivity|].
  apply Injective_map_NoDup; [|apply seq_NoDup].
  intros x y Hxy. lia.
Qed.


(** The rest of the filter statements (lines 76-79), for a mask that
    holds one truth value per row: the selected rows are the ones
    dropped, and the others keep their order. *)
Lemma select_mask {A} (f : A -> bool) (df : Frame A) :
  getitem df (Series (map (fun '(i, r) => (i, SBool (f r))) df))
  = inr (filter (fun '(_, r) => f r) df).
Proof.
  cbn [getitem]. induction df as [|[i r] df IH]; [reflexivity|].
  cbn [map select filter]. rewrite Z.eqb_refl, IH.
  destruct (f r); reflexivity.
Qed.

Lemma label_row {A} (df : Frame A) (i : Z) (r r' : A) :
  NoDup (index df) -> In (i, r) df -> In (i, r') df -> r = r'.
Proof.
  induction df as [|[j x] df IH]; intros Hn H1 H2; [contradiction|].
  cbn [index map fst] in Hn. inversion Hn as [|? ? Hj Hn']; subst.
  destruct H1 as [H1|H1], H2 as [H2|H2].
  - congruence.
  - exfalso. apply Hj. injection H1 as -> _.
    change i with (fst (i, r')). now apply in_map.
  - exfalso. apply Hj. injection H2 as -> _.
    change i with (fst (i, r)). now apply in_map.
  - now apply IH.
Qed.

Lemma drop_selected {A} (f : A -> bool) (df : Frame A) :
  NoDup (index df) ->
  drop (index (filter (fun '(_, r) => f r) df)) df
  = inr (filter (fun '(_, r) => negb (f r)) df).
Proof.
  intros Hn. unfold drop.
  destruct (find _ _) as [l|] eqn:E.
  - exfalso. apply find_some in E as [Hin Hl].
    apply negb_true_iff in Hl.
    assert (Hc : existsb (Z.eqb l) (index df) = true); [|congruence].
    apply existsb_exists. exists l. split; [|apply Z.eqb_refl].
    unfold index in Hin |- *. apply in_map_iff in Hin as [x [<- Hx]].
    apply filter_In in Hx as [Hx _]. now apply in_map.
  - f_equal. apply filter_ext_in. intros [i r] Hir. f_equal.
    destruct (f r) eqn:Hf.
    + apply existsb_exists. exists i. split; [|apply Z.eqb_refl].
      change i with (fst (i, r)). apply in_map, filter_In. now split.
    + destruct (existsb _ _) eqn:Hx; [|reflexivity].
      apply existsb_exists in Hx as [j [Hj Hij]].
      apply Z.eqb_eq in Hij. subst j.
      unfold index in Hj. apply in_map_iff in Hj as [[i' r'] [Hi Hr]].
      cbn in Hi. subst i'. apply filter_In in Hr as [Hr Hf'].
      rewrite (label_row df i r r' Hn Hir Hr) in Hf. congruence.
Qed.

(** Lines 76-77 for a column of [find] results, one per row: the rows
    whose Object holds the text are dropped and the others keep their
    order. *)
Lemma drop_where_found (needle : string) (df : Frame Row) :
  NoDup (index df) ->
  let found := Series (map (fun '(i, r) => (i, SInt (str_find (Object r) needle))) df) in
  match getitem df (py_ne found (SInt (-1))) with
  | inl e => inl e
  | inr arr_obj => drop (index arr_obj) df
  end
  = inr (filter (fun '(_, r) => negb (str_in needle (Object r))) df).
Proof.
  intros Hn. cbv zeta. cbn [py_ne]. rewrite map_map.
  rewrite (map_ext _ (fun '(i, r) => (i, SBool (str_in needle (Object r))))).
  2:{ intros [i r]. cbn [scalar_eq]. now rewrite str_find_in. }
  rewrite (select_mask (fun r => str_in needle (Object r))).
  now apply drop_selected.
Qed.

(** The lookup of [find] on the Object column fails for every table, so
    the first statement of the filter (line 76) ends the run: nothing is
    dropped, numbered, documented or written, and [rowCount] keeps its
    value. *)
Lemma ArlingtonToTS_raises (pandas_tsv : list TsvRow) (c : Z) :
  ArlingtonToTS pandas_tsv c = (inl (AttributeError "Series" "find"), c).
Proof. reflexivity. Qed.

(** C4.  On a table with one array row and one row that the filter is
    meant to keep, the run stops with [AttributeError] at the filter:
    there is no output in which the kept row could appear. *)
Theorem filter_raises_AttributeError :
  run [ArrayOfAnnots_star; Catalog_Type]
  = (inl (AttributeError "Series" "find"), 1%Z).
Proof. reflexivity. Qed.

(** C5.  On a table of two rows that the filter is meant to keep, the run
    stops before the numbering step: no record with a [Data] value is
    produced and the counter is still at its start value. *)
Theorem no_Data_assigned :
  fst (run [Catalog_Type; Page_Parent]) = inl (AttributeError "Series" "find")
  /\ snd (run [Catalog_Type; Page_Parent]) = rowCount.
Proof. split; reflexivity. Qed.

(** C6.  On a table of three rows in which no Object names an array or a
    colour space, the run yields an exception and no sequence of
    records. *)
Theorem no_output_sequence :
  forall out : list Item,
    fst (run [Catalog_Type; Catalog_Pages; Page_Parent]) <> inr out.
Proof. intros out. discriminate. Qed.

(** C9.  On a table whose second and third rows are to be dropped and
    whose first and last rows are to receive the identifiers 1 and 2, the
    run stops at the filter, before any identifier is assigned. *)
Theorem no_identifiers_after_filter :
  run [Catalog_Type; ArrayOfAnnots_star; CalGrayColorSpace_0; Page_Parent]
  = (inl (AttributeError "Series" "find"), rowCount).
Proof. reflexivity. Qed.

(** ** The JSON text: strings and numbers *)

Lemma escape_char_parses (c : ascii) (s : string) :
  parse_chars (escape_char c ++ s) = cons_char c (parse_chars s).
Proof.
  destruct c as [[] [] [] [] [] [] [] []]; reflexivity.
Qed.

Lemma parse_chars_escape (s rest : string) :
  parse_chars (escape s ++ String dquote rest) = Some (s, rest).
Proof.
  induction s as [|c s IH]; [reflexivity|].
  cbn [escape].
  rewrite append_assoc, escape_char_parses, IH.
  reflexivity.
Qed.

Lemma scan_digits_text (u : Decimal.uint) (c : ascii) (r : string) :
  ends_number c = true ->
  scan_digits (digits_text u ++ String c r) = (u, String c r).
Proof.
  intros H.
  assert (Hc : digit_of c = None).
  { unfold ends_number in H. destruct (digit_of c); [discriminate | reflexivity]. }
  induction u as [|u IH|u IH|u IH|u IH|u IH|u IH|u IH|u IH|u IH|u IH];
    cbn [digits_text append scan_digits].
  - rewrite Hc. reflexivity.
  - change (digit_of "0") with (Some Decimal.D0). cbv iota. rewrite IH. reflexivity.
  - change (digit_of "1") with (Some Decimal.D1). cbv iota. rewrite IH. reflexivity.
  - change (digit_of "2") with (Some Decimal.D2). cbv iota. rewrite IH. reflexivity.
  - change (digit_of "3") with (Some Decimal.D3). cbv iota. rewrite IH. reflexivity.
  - change (digit_of "4") with (Some Decimal.D4). cbv iota. rewrite IH. reflexivity.
  - change (digit_of "5") with (Some Decimal.D5). cbv iota. rewrite IH. reflexivity.
  - change (digit_of "6") with (Some Decimal.D6). cbv iota. rewrite IH. reflexivity.
  - change (digit_of "7") with (Some Decimal.D7). cbv iota. rewrite IH. reflexivity.
  - change (digit_of "8") with (Some Decimal.D8). cbv iota. rewrite IH. reflexivity.
  - change (digit_of "9") with (Some Decimal.D9). cbv iota. rewrite IH. reflexivity.
Qed.

Lemma ends_number_tail (c : ascii) (r : string) :
  ends_number c = true ->
  startswith (String c r) "." || startswith (String c r) "e"
  || startswith (String c r) "E" = false.
Proof.
  unfold ends_number. destruct (digit_of c); [discriminate|].
  intros H. apply negb_true_iff in H.
  cbn [startswith]. rewrite !andb_true_r. exact H.
Qed.

Lemma parse_digits_text (negative : bool) (u : Decimal.uint) (c : ascii) (r : string) :
  plain_digits u = true -> ends_number c = true ->
  parse_digits negative (digits_text u ++ String c r)
  = Some (JInt (Z.of_int (if negative then Decimal.Neg u else Decimal.Pos u)),
          String c r).
Proof.
  intros Hu Hc. unfold parse_digits.
  rewrite (scan_digits_text u c r Hc), Hu, (ends_number_tail c r Hc).
  reflexivity.
Qed.

(** The digits that [Pos.to_uint] gives have no leading zero. *)
Lemma plain_digits_to_uint (p : positive) : plain_digits (Pos.to_uint p) = true.
Proof.
  assert (Hn : Decimal.unorm (Pos.to_uint p) = Pos.to_uint p).
  { rewrite <- (DecimalPos.Unsigned.to_of (Pos.to_uint p)).
    rewrite DecimalPos.Unsigned.of_to. reflexivity. }
  pose proof (DecimalPos.Unsigned.to_uint_nonzero p) as Hz.
  pose proof (DecimalPos.Unsigned.to_uint_nonnil p) as Hnil.
  destruct (Pos.to_uint p) as [|u|u|u|u|u|u|u|u|u|u]; try reflexivity.
  - contradiction.
  - destruct u; try reflexivity; exfalso.
    all: unfold Decimal.unorm in Hn; cbn [Decimal.nzhead] in Hn.
    all: match type of Hn with
         | context [Decimal.nzhead ?v] =>
             destruct (Decimal.nzhead v) eqn:E; try discriminate;
             injection Hn as Hn; subst;
             apply (DecimalFacts.nzhead_nonzero _ _ E)
         | _ => discriminate
         end.
Qed.

(** A text that begins with a digit or a sign is read as a number. *)
Lemma parse_value_digit (f : nat) (c : ascii) (t : string) d :
  digit_of c = Some d ->
  parse_value (S f) (String c t) = parse_digits false (String c t).
Proof.
  destruct c as [[] [] [] [] [] [] [] []]; try discriminate; reflexivity.
Qed.

Lemma digits_text_head (u : Decimal.uint) :
  u <> Decimal.Nil ->
  exists c t d, digits_text u = String c t /\ digit_of c = Some d.
Proof.
  destruct u; [contradiction| | | | | | | | | | ]; intros _;
    cbn [digits_text]; do 3 eexists; (split; [reflexivity|]); reflexivity.
Qed.

Lemma plain_digits_nonnil (u : Decimal.uint) :
  plain_digits u = true -> u <> Decimal.Nil.
Proof.
  intros H ->. discriminate.
Qed.

Lemma plain_digits_to_int (z : Z) :
  match Z.to_int z with
  | Decimal.Pos u | Decimal.Neg u => plain_digits u = true
  end.
Proof.
  destruct z as [|p|p]; cbn [Z.to_int]; [reflexivity | |];
    apply plain_digits_to_uint.
Qed.

Lemma parse_value_int (f : nat) (z : Z) (c : ascii) (r : string) :
  ends_number c = true ->
  parse_value (S f) (json_int z ++ String c r) = Some (JInt z, String c r).
Proof.
  intros Hc.
  pose proof (plain_digits_to_int z) as Hu.
  pose proof (DecimalZ.of_to z) as Hz.
  unfold json_int.
  destruct (Z.to_int z) as [u|u].
  - destruct (digits_text_head u (plain_digits_nonnil u Hu)) as (c' & t & d & E & Hd).
    rewrite E. cbn [append].
    rewrite (parse_value_digit f c' _ d Hd).
    change (String c' (t ++ String c r)) with (String c' t ++ String c r).
    rewrite <- E, (parse_digits_text false u c r Hu Hc), Hz.
    reflexivity.
  - cbn [append].
    change (parse_value (S f) (String "-" (digits_text u ++ String c r)))
      with (parse_digits true (digits_text u ++ String c r)).
    rewrite (parse_digits_text true u c r Hu Hc), Hz.
    reflexivity.
Qed.

Lemma parse_value_str (f : nat) (s rest : string) :
  parse_value (S f) (json_string s ++ rest) = Some (JStr s, rest).
Proof.
  unfold json_string. cbn [append].
  rewrite append_assoc. cbn [append].
  change (parse_value (S f) (String dquote (escape s ++ String dquote rest)))
    with (match parse_chars (escape s ++ String dquote rest) with
          | Some (t, rest') => Some (JStr t, rest')
          | None => None
          end).
  rewrite parse_chars_escape. reflexivity.
Qed.

Lemma parse_value_scalar (f : nat) (v : Scalar) (c : ascii) (r : string) :
  is_cell v = true -> ends_number c = true ->
  parse_value (S f) (render_scalar v ++ String c r)
  = Some (json_of_scalar v, String c r).
Proof.
  destruct v as [s|z|b]; intros Hv Hc; try discriminate; cbn [render_scalar json_of_scalar].
  - apply parse_value_str.
  - apply parse_value_int, Hc.
Qed.

(** ** The JSON text: objects and arrays *)

Lemma parse_members_S (f : nat) (s : string) :
  parse_members (S f) s
  = match skip_ws s with
    | "" => None
    | String q r =>
        if Ascii.eqb q dquote then
          match parse_chars r with
          | None => None
          | Some (k, r1) =>
              match skip_ws r1 with
              | "" => None
              | String c r2 =>
                  if Ascii.eqb c ":" then
                    match parse_value f r2 with
                    | None => None
                    | Some (v, r3) =>
                        match skip_ws r3 with
                        | "" => None
                        | String c' r4 =>
                            if Ascii.eqb c' "," then
                              match parse_members f r4 with
                              | Some (ms, rest) => Some ((k, v) :: ms, rest)
                              | None => None
                              end
                            else if Ascii.eqb c' "}" then Some ([(k, v)], r4)
                            else None
                        end
                    end
                  else None
              end
          end
        else None
    end.
Proof.
  reflexivity.
Qed.

Lemma parse_elements_S (f : nat) (s : string) :
  parse_elements (S f) s
  = match parse_value f s with
    | None => None
    | Some (v, r) =>
        match skip_ws r with
        | "" => None
        | String c r' =>
            if Ascii.eqb c "," then
              match parse_elements f r' with
              | Some (vs, rest) => Some (v :: vs, rest)
              | None => None
              end
            else if Ascii.eqb c "]" then Some ([v], r')
            else None
        end
    end.
Proof.
  reflexivity.
Qed.

(** One member, and what the parser does behind it. *)
Lemma parse_members_member (f : nat) (m : string * Scalar) (X : string) :
  parse_value f (render_scalar (snd m) ++ X) = Some (json_of_scalar (snd m), X) ->
  parse_members (S f) (render_member m ++ X)
  = match skip_ws X with
    | "" => None
    | String c r =>
        if Ascii.eqb c "," then
          match parse_members f r with
          | Some (ms, rest) => Some (member_json m :: ms, rest)
          | None => None
          end
        else if Ascii.eqb c "}" then Some ([member_json m], r)
        else None
    end.
Proof.
  intros H.
  unfold render_member, json_string.
  repeat (rewrite ?append_assoc; cbn [append]).
  remember (render_scalar (snd m) ++ X) as tail eqn:E.
  rewrite parse_members_S.
  cbn [skip_ws]. 
  change (is_ws " ") with true. cbv iota.
  change (is_ws dquote) with false. cbv iota.
  change (Ascii.eqb dquote dquote) with true. cbv iota.
  rewrite parse_chars_escape.
  cbn [skip_ws]. change (is_ws ":") with false. cbv iota.
  change (Ascii.eqb ":" ":") with true. cbv iota.
  subst tail. rewrite H.
  reflexivity.
Qed.

Lemma parse_members_ws (f : nat) (c : ascii) (s : string) :
  is_ws c = true -> parse_members f (String c s) = parse_members f s.
Proof.
  intros H. destruct f as [|f]; [reflexivity|].
  rewrite !parse_members_S. cbn [skip_ws]. rewrite H. reflexivity.
Qed.

Lemma parse_value_ws (f : nat) (c : ascii) (s : string) :
  is_ws c = true -> parse_value f (String c s) = parse_value f s.
Proof.
  intros H. destruct f as [|f]; [reflexivity|].
  cbn [parse_value skip_ws]. rewrite H. reflexivity.
Qed.

(** The members of an object, up to its closing brace. *)
Lemma parse_members_render (ms : list (string * Scalar)) :
  forall (f : nat) (tail rest : string),
    ms <> [] ->
    forallb (fun m => is_cell (snd m)) ms = true ->
    (List.length ms < f)%nat ->
    skip_ws tail = String "}" rest ->
    parse_members f (render_members ms ++ tail) = Some (map member_json ms, rest).
Proof.
  induction ms as [|m ms IH]; intros f tail rest Hne Hcells Hf Htail; [contradiction|].
  cbn [forallb] in Hcells. apply andb_true_iff in Hcells as [Hm Hcells].
  destruct f as [|[|f]]; cbn [List.length] in Hf; try lia.
  destruct ms as [|m' ms].
  - cbn [render_members map].
    rewrite append_assoc. cbn [append].
    rewrite parse_members_member
      by (apply parse_value_scalar; [exact Hm | reflexivity]).
    cbn [skip_ws]. change (is_ws newline) with true. cbv iota.
    rewrite Htail. reflexivity.
  - change (render_members (m :: m' :: ms))
      with (render_member m ++ "," ++ String newline (render_members (m' :: ms))).
    repeat (rewrite ?append_assoc; cbn [append]).
    rewrite parse_members_member
      by (apply parse_value_scalar; [exact Hm | reflexivity]).
    cbn [skip_ws]. change (is_ws ",") with false. cbv iota.
    change (Ascii.eqb "," ",") with true. cbv iota.
    rewrite parse_members_ws by reflexivity.
    rewrite (IH (S f) tail rest); [reflexivity | discriminate | exact Hcells | | exact Htail].
    cbn [List.length] in *. lia.
Qed.

(** One record of the table, whatever follows it. *)
Lemma parse_value_record (f : nat) (item : Item) (X : string) :
  (15 < f)%nat ->
  parse_value f (render_record (columns_of item) ++ X) = Some (record_json item, X).
Proof.
  intros Hf. destruct f as [|f]; [lia|].
  unfold render_record.
  repeat (rewrite ?append_assoc; cbn [append]).
  do 2 (rewrite parse_value_ws by reflexivity).
  cbn [parse_value skip_ws].
  change (is_ws "{") with false. cbv iota.
  change (Ascii.eqb "{" dquote) with false.
  change (Ascii.eqb "{" "[") with false.
  change (Ascii.eqb "{" "{") with true. cbv iota.
  rewrite parse_members_ws by reflexivity.
  rewrite (parse_members_render (columns_of item) f
             (String " " (String " " (String "}" X))) X);
    [ | discriminate | reflexivity | cbn; lia | reflexivity ].
  assert (Hhead : startswith
                    (skip_ws (String newline
                                (render_members (columns_of item)
                                 ++ String " " (String " " (String "}" X))))) "}"
                  = false).
  { unfold columns_of. cbn [render_members]. unfold render_member, json_string.
    repeat (rewrite ?append_assoc; cbn [append fst snd]).
    reflexivity. }
  rewrite Hhead.
  reflexivity.
Qed.

Lemma parse_elements_ws (f : nat) (c : ascii) (s : string) :
  is_ws c = true -> parse_elements f (String c s) = parse_elements f s.
Proof.
  intros H. destruct f as [|f]; [reflexivity|].
  rewrite !parse_elements_S, (parse_value_ws f c s H). reflexivity.
Qed.

Lemma skip_ws_ws (c : ascii) (s : string) :
  is_ws c = true -> skip_ws (String c s) = skip_ws s.
Proof.
  intros H. cbn [skip_ws]. rewrite H. reflexivity.
Qed.

(** The records of an array, up to its closing bracket. *)
Lemma parse_elements_render (items : list Item) :
  forall (f : nat) (rest : string),
    items <> [] ->
    (List.length items + 16 <= f)%nat ->
    parse_elements f (render_records (map columns_of items) ++ String "]" rest)
    = Some (map record_json items, rest).
Proof.
  induction items as [|item items IH]; intros f rest Hne Hf; [contradiction|].
  destruct f as [|f]; cbn [List.length] in Hf; [lia|].
  rewrite parse_elements_S.
  destruct items as [|item' items].
  - cbn [map render_records].
    rewrite append_assoc. cbn [append].
    rewrite parse_value_record by (cbn [List.length] in Hf; lia).
    rewrite skip_ws_ws by reflexivity.
    reflexivity.
  - change (render_records (map columns_of (item :: item' :: items)))
      with (render_record (columns_of item)
            ++ "," ++ String newline (render_records (map columns_of (item' :: items)))).
    repeat (rewrite ?append_assoc; cbn [append]).
    rewrite parse_value_record by (cbn [List.length] in Hf; lia).
    cbn [skip_ws]. change (is_ws ",") with false. cbv iota.
    change (Ascii.eqb "," ",") with true. cbv iota.
    rewrite parse_elements_ws by reflexivity.
    rewrite (IH f rest); [reflexivity | discriminate | cbn [List.length] in *; lia].
Qed.

Lemma length_app (s t : string) :
  String.length (s ++ t) = (String.length s + String.length t)%nat.
Proof.
  induction s as [|c s IH]; cbn [append String.length]; [reflexivity|].
  rewrite IH. reflexivity.
Qed.

Lemma length_render_record (item : Item) :
  (17 <= String.length (render_record (columns_of item)))%nat.
Proof.
  unfold render_record, columns_of.
  cbn [render_members]. unfold render_member.
  cbn [append String.length]. rewrite !length_app. cbn [String.length]. lia.
Qed.

(** The text of the records is longer than their number. *)
Lemma length_render_records (items : list Item) :
  (17 * List.length items
   <= String.length (render_records (map columns_of items)))%nat.
Proof.
  induction items as [|item items IH]; [cbn; lia|].
  pose proof (length_render_record item) as Hr.
  destruct items as [|item' items].
  - cbn [map render_records List.length]. rewrite length_app. lia.
  - change (render_records (map columns_of (item :: item' :: items)))
      with (render_record (columns_of item)
            ++ "," ++ String newline (render_records (map columns_of (item' :: items)))).
    rewrite length_app. cbn [append String.length List.length] in *. lia.
Qed.

Lemma parse_value_array (f : nat) (r : string) :
  startswith (skip_ws r) "]" = false ->
  parse_value (S f) (String "[" r)
  = match parse_elements f r with
    | Some (vs, rest) => Some (JArr vs, rest)
    | None => None
    end.
Proof.
  intros H. cbn [parse_value skip_ws].
  change (is_ws "[") with false. cbv iota.
  change (Ascii.eqb "[" dquote) with false.
  change (Ascii.eqb "[" "[") with true. cbv iota.
  rewrite H. reflexivity.
Qed.

Lemma render_records_head (r : list (string * Scalar))
    (rs : list (list (string * Scalar))) (tail : string) :
  startswith (skip_ws (String newline (render_records (r :: rs) ++ tail))) "]" = false.
Proof.
  destruct rs; cbn [render_records]; unfold render_record;
    repeat (rewrite ?append_assoc; cbn [append]); reflexivity.
Qed.

(** C7: for every transformed table [T], the text that [to_json] writes
    for [T] is read back by [json.load] as [T]: a list with one [dict]
    per record, in the order of the records, each [dict] with the
    fourteen column names as its keys and the record's values under
    them. *)
Theorem json_round_trip (records : list Item) :
  json_load (to_json records) = Some (json_of_table records).
Proof.
  destruct records as [|item records]; [reflexivity|].
  set (T := item :: records).
  assert (Hlen : (List.length T + 16
                  < String.length ("[" ++ String newline
                                     (render_records (map columns_of T) ++ "]")))%nat).
  { cbn [append String.length]. rewrite length_app.
    pose proof (length_render_records T) as H.
    assert (1 <= List.length T)%nat by (subst T; cbn [List.length]; lia).
    cbn [String.length]. lia. }
  unfold json_load.
  change (to_json T)
    with ("[" ++ String newline (render_records (map columns_of T) ++ "]")).
  destruct (String.length ("[" ++ String newline
                             (render_records (map columns_of T) ++ "]")))
    as [|f]; [lia|].
  cbn [append].
  rewrite parse_value_array by (subst T; apply render_records_head).
  rewrite parse_elements_ws by reflexivity.
  rewrite (parse_elements_render T f ""); [reflexivity | discriminate | lia].
Qed.
(** * Further properties *)

(** ** The tidy-up and the words of the clauses *)

Lemma documentation_tidies (row : NumberedRow) :
  CreateVSCodeCompletionDocumentation row = tidy (documentation_untidied row).
Proof. reflexivity. Qed.

Lemma disjoint_chars_cons (c : ascii) (w pat : string) :
  disjoint_chars (String c w) pat = true ->
  str_in (String c "") pat = false /\ disjoint_chars w pat = true.
Proof.
  cbn [disjoint_chars]. intros H. apply andb_true_iff in H as [H1 H2].
  now apply negb_true_iff in H1.
Qed.

(** A word that shares no character with the pattern is copied, and the
    text is rewritten on either side of it. *)
Lemma re_sub_word (pat repl w a b : string) :
  pat <> "" -> w <> "" -> disjoint_chars w pat = true ->
  re_sub pat repl (a ++ w ++ b) = re_sub pat repl a ++ w ++ re_sub pat repl b.
Proof.
  intros Hp. revert a; induction w as [|c w IH]; intros a Hw Hd; [contradiction|].
  apply disjoint_chars_cons in Hd as [Hc Hd].
  change (a ++ String c w ++ b) with (a ++ String c (w ++ b)).
  rewrite re_sub_sep by assumption.
  destruct w as [|d w]; [reflexivity|].
  change (String d w ++ b) with ("" ++ String d w ++ b).
  now rewrite IH by (discriminate || assumption).
Qed.

Lemma tidy_word (w a b : string) :
  w <> "" -> disjoint_chars w "_()_" = true -> disjoint_chars w "_(; " = true ->
  tidy (a ++ w ++ b) = tidy a ++ w ++ tidy b.
Proof.
  intros Hw H1 H2.
  rewrite (re_sub_word "_()_") by (discriminate || assumption).
  now rewrite (re_sub_word "_(; ") by (discriminate || assumption).
Qed.

Lemma tidy_keeps_word (w a b : string) :
  w <> "" -> disjoint_chars w "_()_" = true -> disjoint_chars w "_(; " = true ->
  str_in w (tidy (a ++ w ++ b)) = true.
Proof.
  intros Hw H1 H2. rewrite tidy_word by assumption.
  apply str_in_iff. now exists (tidy a), (tidy b).
Qed.

(** The quoted type is not touched by the tidy-up, unless the type holds
    an empty parenthetical of its own. *)
Lemma tidy_quoted_type (T : string) :
  str_in "_()_" T = false ->
  tidy (re_sub ";" "`;`" T) = re_sub ";" "`;`" T.
Proof.
  intros HT. apply tidy_clean. split.
  - rewrite str_in_quote by (discriminate || reflexivity). exact HT.
  - apply str_in_weaken_sub with "; "; [reflexivity | apply quote_no_sep].
Qed.

(** The string before the tidy-up: the quoted type, a space, and the
    parenthetical with what follows it. *)
Lemma untidied_shape (row : NumberedRow) :
  exists tail,
    documentation_untidied row
    = ("`" ++ re_sub ";" "`;`" (Type_ (fields row)) ++ "` ") ++ "_(" ++ tail.
Proof.
  unfold documentation_untidied. cbv zeta. rewrite quoted_type.
  destruct (String.length (SinceVersion (fields row)) =? 3)%nat;
  destruct (Required (fields row) =? "TRUE")%string;
  destruct (Required (fields row) =? "FALSE")%string;
  destruct (negb (DeprecatedIn (fields row) =? "")%string);
  destruct (IndirectReference (fields row) =? "TRUE")%string;
  eexists; rewrite ?append_assoc; reflexivity.
Qed.

(** The tidy-up goes past the quoted type and its back-quotes. *)
Lemma tidy_behind_type (T tail : string) :
  str_in "_()_" T = false ->
  tidy (("`" ++ re_sub ";" "`;`" T ++ "` ") ++ "_(" ++ tail)
  = ("`" ++ re_sub ";" "`;`" T) ++ "` " ++ tidy ("_(" ++ tail).
Proof.
  intros HT. set (Q := re_sub ";" "`;`" T).
  rewrite !append_assoc.
  change ("`" ++ Q ++ "` " ++ "_(" ++ tail)
    with ("" ++ "`" ++ (Q ++ "`" ++ String " " ("_(" ++ tail))).
  rewrite !tidy_word by (discriminate || reflexivity).
  unfold Q. rewrite tidy_quoted_type by exact HT.
  reflexivity.
Qed.

(** X1.  Whatever the other fields hold, the documentation string of a
    row whose Type does not contain [_()_] begins with the type between
    back-quotes, every [;] of it replaced by [`;`], and a space: the
    tidy-up never reaches into the type. *)
Theorem documentation_type_prefix (row : NumberedRow) :
  str_in "_()_" (Type_ (fields row)) = false ->
  exists rest,
    CreateVSCodeCompletionDocumentation row
    = ("`" ++ re_sub ";" "`;`" (Type_ (fields row))) ++ "` " ++ rest.
Proof.
  intros HT. rewrite documentation_tidies.
  destruct (untidied_shape row) as [tail ->].
  exists (tidy ("_(" ++ tail)). now apply tidy_behind_type.
Qed.

Lemma documentation_type_prefix_witness :
  exists rest,
    CreateVSCodeCompletionDocumentation
      (mkNumbered (mkRow "Catalog" "Type" "array;name" "_()" "_(_()_)_" "TRUE" "" "" "" "" "" "") 3)
    = "`array`;`name` " ++ rest.
Proof.
  apply (documentation_type_prefix
           (mkNumbered (mkRow "Catalog" "Type" "array;name" "_()" "_(_()_)_" "TRUE" "" "" "" "" "" "") 3)).
  reflexivity.
Defined.

(** X2.  For every row whose IndirectReference field is [TRUE], the
    documentation string ends with the sentence [Must be indirect
    reference.], whatever the other fields hold. *)
Theorem documentation_indirect_sentence (row : NumberedRow) :
  IndirectReference (fields row) = "TRUE" ->
  exists front,
    CreateVSCodeCompletionDocumentation row = front ++ "Must be indirect reference.".
Proof.
  intros HI. rewrite documentation_tidies.
  unfold documentation_untidied. cbv zeta. rewrite HI. cbn [String.eqb Ascii.eqb Bool.eqb].
  match goal with
  | |- context [tidy (?Y ++ " Must be indirect reference.")] =>
      exists (tidy (Y ++ " "));
      replace (Y ++ " Must be indirect reference.")
        with ((Y ++ " ") ++ "Must" ++ " be indirect reference.")
        by (now rewrite append_assoc)
  end.
  rewrite tidy_word by (discriminate || reflexivity).
  reflexivity.
Qed.

Lemma documentation_indirect_sentence_witness :
  exists front,
    CreateVSCodeCompletionDocumentation
      (mkNumbered (mkRow "Catalog" "Type" "name" "" "_(;_(" "" "TRUE" "" "" "" "" "") 3)
    = front ++ "Must be indirect reference.".
Proof.
  apply (documentation_indirect_sentence
           (mkNumbered (mkRow "Catalog" "Type" "name" "" "_(;_(" "" "TRUE" "" "" "" "" "") 3)).
  reflexivity.
Defined.

(** Where each clause puts its word in the string before the tidy-up. *)
Lemma untidied_version (row : NumberedRow) :
  (String.length (SinceVersion (fields row)) =? 3)%nat = true ->
  exists a b, documentation_untidied row = a ++ "PDF" ++ b.
Proof.
  intros H. unfold documentation_untidied. cbv zeta. rewrite H.
  set (s1 := re_sub ";" "`;`" _).
  destruct (Required (fields row) =? "TRUE")%string;
  destruct (Required (fields row) =? "FALSE")%string;
  destruct (negb (DeprecatedIn (fields row) =? "")%string);
  destruct (IndirectReference (fields row) =? "TRUE")%string;
  exists s1; eexists; rewrite ?append_assoc; reflexivity.
Qed.

Lemma untidied_required (row : NumberedRow) :
  Required (fields row) = "TRUE" ->
  exists a b, documentation_untidied row = a ++ "Required" ++ b.
Proof.
  intros H. unfold documentation_untidied. cbv zeta. rewrite H.
  set (s2 := if (String.length (SinceVersion (fields row)) =? 3)%nat
             then _ else _).
  cbn [String.eqb Ascii.eqb Bool.eqb].
  destruct (negb (DeprecatedIn (fields row) =? "")%string);
  destruct (IndirectReference (fields row) =? "TRUE")%string;
  exists (s2 ++ "; "); eexists; rewrite ?append_assoc; reflexivity.
Qed.

Lemma untidied_optional (row : NumberedRow) :
  Required (fields row) = "FALSE" ->
  exists a b, documentation_untidied row = a ++ "Optional" ++ b.
Proof.
  intros H. unfold documentation_untidied. cbv zeta. rewrite H.
  set (s2 := if (String.length (SinceVersion (fields row)) =? 3)%nat
             then _ else _).
  cbn [String.eqb Ascii.eqb Bool.eqb].
  destruct (negb (DeprecatedIn (fields row) =? "")%string);
  destruct (IndirectReference (fields row) =? "TRUE")%string;
  exists (s2 ++ "; "); eexists; rewrite ?append_assoc; reflexivity.
Qed.

Lemma untidied_deprecated (row : NumberedRow) :
  DeprecatedIn (fields row) <> "" ->
  exists a b, documentation_untidied row = a ++ "Deprecated" ++ b.
Proof.
  intros H. apply String.eqb_neq in H.
  unfold documentation_untidied. cbv zeta. rewrite H. cbn [negb].
  set (s3 := if (Required (fields row) =? "TRUE")%string then _ else _).
  destruct (IndirectReference (fields row) =? "TRUE")%string;
  exists (s3 ++ "; "); eexists; rewrite ?append_assoc; reflexivity.
Qed.

(** X3.  The word of every clause that the builder appends is in the
    documentation string, whatever the fields hold: [PDF] for a version
    of three characters, [Required] or [Optional] for a Required field of
    [TRUE] or [FALSE], [Deprecated] for a DeprecatedIn field that is not
    empty.  The tidy-up removes at most the separator in front of a
    word. *)
Theorem documentation_clause_words (row : NumberedRow) :
  (String.length (SinceVersion (fields row)) = 3 ->
   str_in "PDF" (CreateVSCodeCompletionDocumentation row) = true)
  /\ (Required (fields row) = "TRUE" ->
      str_in "Required" (CreateVSCodeCompletionDocumentation row) = true)
  /\ (Required (fields row) = "FALSE" ->
      str_in "Optional" (CreateVSCodeCompletionDocumentation row) = true)
  /\ (DeprecatedIn (fields row) <> "" ->
      str_in "Deprecated" (CreateVSCodeCompletionDocumentation row) = true).
Proof.
  rewrite documentation_tidies. repeat split; intros H.
  - apply Nat.eqb_eq in H. destruct (untidied_version row H) as (a & b & ->).
    apply tidy_keeps_word; (discriminate || reflexivity).
  - destruct (untidied_required row H) as (a & b & ->).
    apply tidy_keeps_word; (discriminate || reflexivity).
  - destruct (untidied_optional row H) as (a & b & ->).
    apply tidy_keeps_word; (discriminate || reflexivity).
  - destruct (untidied_deprecated row H) as (a & b & ->).
    apply tidy_keeps_word; (discriminate || reflexivity).
Qed.

(** X4.  For every row with a version of three characters whose Type,
    SinceVersion and DeprecatedIn fields do not contain [_(], the tidy-up
    changes nothing: the documentation string is the string as built by
    lines 45-57. *)
Theorem documentation_with_version (row : NumberedRow) :
  String.length (SinceVersion (fields row)) = 3 ->
  str_in "_(" (Type_ (fields row)) = false ->
  str_in "_(" (SinceVersion (fields row)) = false ->
  str_in "_(" (DeprecatedIn (fields row)) = false ->
  CreateVSCodeCompletionDocumentation row = documentation_untidied row.
Proof.
  intros HL HT HS HD. rewrite documentation_tidies. apply tidy_clean.
  apply Nat.eqb_eq in HL.
  unfold documentation_untidied. cbv zeta. rewrite HL, quoted_type.
  pose proof (quoted_type_free _ HT) as HP.
  set (P := "`" ++ re_sub ";" "`;`" (Type_ (fields row)) ++ "` ") in *.
  destruct (Required (fields row) =? "TRUE")%string;
  destruct (Required (fields row) =? "FALSE")%string;
  destruct (DeprecatedIn (fields row) =? "")%string;
  destruct (IndirectReference (fields row) =? "TRUE")%string;
  cbn [negb]; rewrite ?append_assoc; cbn [append];
  lazymatch goal with
  | |- context [P ++ String "_" (String "(" (String "P" ?Y))] =>
      refine (clean_open P HP "P" Y _ eq_refl eq_refl)
  end; up_free.
Qed.

Lemma documentation_with_version_witness :
  CreateVSCodeCompletionDocumentation
    (mkNumbered (mkRow "Catalog" "Type" "name;string" "1.5" "2.0" "FALSE" "" "" "" "" "" "") 9)
  = "`name`;`string` _(PDF 1.5; Optional; Deprecated in PDF 2.0)_".
Proof.
  apply (documentation_with_version
           (mkNumbered (mkRow "Catalog" "Type" "name;string" "1.5" "2.0" "FALSE" "" "" "" "" "" "") 9));
    reflexivity.
Defined.

(** X5.  For every row without a version of three characters that has a
    Required clause or a Deprecated clause, and whose Type and
    DeprecatedIn fields do not contain [_(], the tidy-up removes the
    separator of the first clause and nothing else: the string built by
    lines 45-57 is the quoted type, a space, [_(; ] and a rest, and the
    documentation string is the quoted type, a space, [_(] and the same
    rest. *)
Theorem documentation_without_version (row : NumberedRow) :
  String.length (SinceVersion (fields row)) <> 3 ->
  Required (fields row) = "TRUE" \/ Required (fields row) = "FALSE"
    \/ DeprecatedIn (fields row) <> "" ->
  str_in "_(" (Type_ (fields row)) = false ->
  str_in "_(" (DeprecatedIn (fields row)) = false ->
  exists rest,
    documentation_untidied row
    = ("`" ++ re_sub ";" "`;`" (Type_ (fields row)) ++ "` ") ++ "_(; " ++ rest
    /\ CreateVSCodeCompletionDocumentation row
       = ("`" ++ re_sub ";" "`;`" (Type_ (fields row)) ++ "` ") ++ "_(" ++ rest.
Proof.
  intros HL HC HT HD. rewrite documentation_tidies.
  apply Nat.eqb_neq in HL.
  unfold documentation_untidied. cbv zeta. rewrite HL, quoted_type.
  pose proof (quoted_type_free _ HT) as HP.
  set (P := "`" ++ re_sub ";" "`;`" (Type_ (fields row)) ++ "` ") in *.
  assert (HC' : (Required (fields row) =? "TRUE")%string = true
                \/ (Required (fields row) =? "FALSE")%string = true
                \/ (DeprecatedIn (fields row) =? "")%string = false).
  { destruct HC as [H|[H|H]]; [left|right; left|right; right];
      (apply String.eqb_eq || apply String.eqb_neq); exact H. }
  clear HC.
  destruct (Required (fields row) =? "TRUE")%string;
  destruct (Required (fields row) =? "FALSE")%string;
  destruct (DeprecatedIn (fields row) =? "")%string;
  try (exfalso; destruct HC' as [H|[H|H]]; discriminate H);
  destruct (IndirectReference (fields row) =? "TRUE")%string;
  cbn [negb]; rewrite ?append_assoc; cbn [append];
  lazymatch goal with
  | |- context [P ++ String "_" (String "(" (String ";" (String " " (String ?c ?Y))))] =>
      exists (String c Y); split; [reflexivity | refine (tidy_sep P HP c Y _)]
  end; up_free.
Qed.

Lemma documentation_without_version_witness :
  exists rest,
    documentation_untidied
      (mkNumbered (mkRow "Catalog" "Type" "integer" "" "" "FALSE" "" "" "" "" "" "") 1)
    = "`integer` " ++ "_(; " ++ rest
    /\ CreateVSCodeCompletionDocumentation
         (mkNumbered (mkRow "Catalog" "Type" "integer" "" "" "FALSE" "" "" "" "" "" "") 1)
       = "`integer` " ++ "_(" ++ rest.
Proof.
  apply (documentation_without_version
           (mkNumbered (mkRow "Catalog" "Type" "integer" "" "" "FALSE" "" "" "" "" "" "") 1));
    [discriminate | right; left; reflexivity | reflexivity | reflexivity].
Defined.

(** ** The type tokens *)

Lemma join_cons (sep t u : string) (parts : list string) :
  join sep (t :: u :: parts) = t ++ sep ++ join sep (u :: parts).
Proof. reflexivity. Qed.

(** Line 46 on a type made of tokens: the separators between the tokens
    are the only ones it finds. *)
Lemma quote_join (tokens : list string) :
  Forall (fun t => str_in ";" t = false) tokens ->
  re_sub ";" "`;`" (join ";" tokens) = join "`;`" tokens.
Proof.
  induction tokens as [|t [|u tokens] IH]; intros H.
  - reflexivity.
  - inversion H; subst. now apply re_sub_absent.
  - inversion H as [|? ? Ht H']; subst.
    rewrite !join_cons, !quote_app, IH by exact H'.
    now rewrite (re_sub_absent ";" "`;`" t Ht).
Qed.

Lemma backquote_join (t : string) (tokens : list string) :
  "`" ++ join "`;`" (t :: tokens) ++ "`"
  = join ";" (map (fun t => "`" ++ t ++ "`") (t :: tokens)).
Proof.
  revert t; induction tokens as [|u tokens IH]; intros t; [reflexivity|].
  transitivity (("`" ++ t ++ "`") ++ ";" ++ ("`" ++ join "`;`" (u :: tokens) ++ "`")).
  - rewrite join_cons, !append_assoc. reflexivity.
  - rewrite IH. reflexivity.
Qed.

(** X12.  When the Type field is a list of tokens joined by [;], none of
    which holds a [;], and does not contain [_()_], the documentation
    string begins with the tokens, each between back-quotes of its own,
    joined by [;], and a space. *)
Theorem documentation_type_tokens (row : NumberedRow) (t : string) (tokens : list string) :
  Type_ (fields row) = join ";" (t :: tokens) ->
  Forall (fun t => str_in ";" t = false) (t :: tokens) ->
  str_in "_()_" (Type_ (fields row)) = false ->
  exists rest,
    CreateVSCodeCompletionDocumentation row
    = join ";" (map (fun t => "`" ++ t ++ "`") (t :: tokens)) ++ " " ++ rest.
Proof.
  intros HT Hs Hc. rewrite documentation_tidies.
  destruct (untidied_shape row) as [tail ->].
  exists (tidy ("_(" ++ tail)).
  rewrite tidy_behind_type by exact Hc.
  rewrite HT, quote_join by exact Hs.
  rewrite <- backquote_join, !append_assoc. reflexivity.
Qed.

Lemma documentation_type_tokens_witness :
  exists rest,
    CreateVSCodeCompletionDocumentation
      (mkNumbered (mkRow "Catalog" "Type" "array;boolean;name" "1.2" "" "TRUE" "" "" "" "" "" "") 5)
    = "`array`;`boolean`;`name`" ++ " " ++ rest.
Proof.
  apply (documentation_type_tokens
           (mkNumbered (mkRow "Catalog" "Type" "array;boolean;name" "1.2" "" "TRUE" "" "" "" "" "" "") 5)
           "array" ["boolean"; "name"]);
    [reflexivity | repeat constructor | reflexivity].
Defined.

(** ** The added columns and the counter *)



(** X7.  On a frame with at least one row, the records that lines 82-85
    yield carry, in their order, the identifiers [c], [c + 1], ... from
    the counter value [c] they start with; no two records share an
    identifier. *)
Theorem add_columns_identifiers (df : Frame Row) (c : Z) :
  df <> [] ->
  exists out,
    fst (add_columns df c) = inr out
    /\ map (fun item => Data (numbered item)) out
       = map (fun k => (c + Z.of_nat k)%Z) (seq 0 (List.length df))
    /\ NoDup (map (fun item => Data (numbered item)) out).
Proof.
  intros Hdf. pose proof (add_columns_records df c Hdf) as E.
  eexists. split; [now rewrite E|].
  apply (add_columns_Data df c). now rewrite E.
Qed.

Lemma add_columns_identifiers_witness :
  exists out,
    fst (add_columns [(0%Z, mkRow "Catalog" "Type" "name" "" "" "TRUE" "" "" "" "" "" "");
                      (3%Z, mkRow "Page" "Parent" "dictionary" "" "" "" "TRUE" "" "" "" "" "")] 1%Z)
    = inr out
    /\ map (fun item => Data (numbered item)) out = [1%Z; 2%Z]
    /\ NoDup (map (fun item => Data (numbered item)) out).
Proof.
  apply (add_columns_identifiers
           [(0%Z, mkRow "Catalog" "Type" "name" "" "" "TRUE" "" "" "" "" "" "");
            (3%Z, mkRow "Page" "Parent" "dictionary" "" "" "" "TRUE" "" "" "" "" "")] 1%Z).
  discriminate.
Defined.

(** X8.  The counter is never set back: when lines 82-85 run on one
    frame with rows and then on another in the same process, the second
    run goes on from the value the first one left, and no identifier of
    the second run is one of the first. *)
Theorem identifiers_across_runs (df1 df2 : Frame Row) (c : Z) :
  df1 <> [] -> df2 <> [] ->
  exists out1 out2,
    (o1 <- add_columns df1 ;; o2 <- add_columns df2 ;; ret (o1, o2)) c
    = (inr (out1, out2),
       (c + Z.of_nat (List.length df1) + Z.of_nat (List.length df2))%Z)
    /\ map (fun item => Data (numbered item)) out2
       = map (fun k => (c + Z.of_nat (List.length df1) + Z.of_nat k)%Z)
             (seq 0 (List.length df2))
    /\ NoDup (map (fun item => Data (numbered item)) (out1 ++ out2)%list).
Proof.
  intros H1 H2.
  pose proof (add_columns_records df1 c H1) as R1.
  pose proof (add_columns_records df2 (c + Z.of_nat (List.length df1)) H2) as R2.
  do 2 eexists. split; [|split].
  - unfold bind, ret. rewrite R1, R2. reflexivity.
  - apply (add_columns_Data df2 (c + Z.of_nat (List.length df1))).
    now rewrite R2.
  - rewrite map_app. apply NoDup_app.
    + apply (add_columns_Data df1 c). now rewrite R1.
    + apply (add_columns_Data df2 (c + Z.of_nat (List.length df1))).
      now rewrite R2.
    + intros d D1 D2.
      rewrite (proj1 (add_columns_Data df1 c _ (f_equal fst R1))) in D1.
      rewrite (proj1 (add_columns_Data df2 _ _ (f_equal fst R2))) in D2.
      apply in_map_iff in D1 as [k1 [<- D1]].
      apply in_map_iff in D2 as [k2 [E D2]].
      apply in_seq in D1, D2. lia.
Qed.

Lemma identifiers_across_runs_witness :
  exists out1 out2,
    (o1 <- add_columns [(0%Z, mkRow "Catalog" "Type" "name" "" "" "TRUE" "" "" "" "" "" "")] ;;
     o2 <- add_columns [(0%Z, mkRow "Page" "Parent" "dictionary" "" "" "" "TRUE" "" "" "" "" "")] ;;
     ret (o1, o2)) 1%Z
    = (inr (out1, out2), 3%Z)
    /\ map (fun item => Data (numbered item)) out2 = [2%Z]
    /\ NoDup (map (fun item => Data (numbered item)) (out1 ++ out2)%list).
Proof.
  apply (identifiers_across_runs
           [(0%Z, mkRow "Catalog" "Type" "name" "" "" "TRUE" "" "" "" "" "" "")]
           [(0%Z, mkRow "Page" "Parent" "dictionary" "" "" "" "TRUE" "" "" "" "" "")] 1%Z);
    discriminate.
Defined.


(** ** The run and the command line *)

(** X9.  [ArlingtonToTS] returns for no table: whatever the rows of the
    file are, and also when there are none, the lookup of [find] on the
    Object column (line 76) raises [AttributeError], and the counter is
    left as it was. *)
Theorem ArlingtonToTS_fails_on_every_table (pandas_tsv : list TsvRow) (c : Z) :
  fst (ArlingtonToTS pandas_tsv c) = inl (AttributeError "Series" "find")
  /\ snd (ArlingtonToTS pandas_tsv c) = c
  /\ forall out, fst (ArlingtonToTS pandas_tsv c) <> inr out.
Proof. rewrite ArlingtonToTS_raises. repeat split. intros out. discriminate. Qed.




(** ** Examples *)

(** One pass of [re.sub]: the text that a removal brings together is not
    scanned again, and matches do not overlap. *)
Example re_sub_single_pass : re_sub "_()_" "" "_(_()_)_" = "_()_".
Proof. reflexivity. Qed.

Example re_sub_no_overlap : re_sub "aa" "b" "aaa" = "ba".
Proof. reflexivity. Qed.

(** The parser refuses what is not one JSON value. *)
Example json_load_examples :
  json_load "[1, 2 , {}, [ ], true,null, -0 ] "
  = Some (JArr [JInt 1; JInt 2; JObj []; JArr []; JBool true; JNull; JInt 0])
  /\ json_load "[1, 2" = None
  /\ json_load "[01]" = None
  /\ json_load "[1] 2" = None
  /\ json_load "[1.5]" = None.
Proof. repeat split. Qed.

Example str_find_examples :
  str_find "ArrayOfAnnots" "Array" = 0%Z
  /\ str_find "CalGrayColorSpace" "ColorSpace" = 7%Z
  /\ str_find "Catalog" "Array" = (-1)%Z.
Proof. repeat split. Qed.

(** A row without a version: the separator of the first clause is
    dropped. *)
Example doc_example :
  CreateVSCodeCompletionDocumentation
    (mkNumbered (mkRow "Catalog" "Type" "integer" "" "" "FALSE" "" "" "" "" "" "") 1)
  = "`integer` _(Optional)_".
Proof. reflexivity. Qed.

